(** * Orchestration core of the AI nutrition system

    A shallow embedding of [src/system_integration.py] (class
    [NutritionSystem]) and the properties of its public operations.

    - Python values are the inductive type [val]; a Python [dict] with
      string keys is an insertion-ordered association list.
    - [self.active_users] is a finite map from user ids to profile dicts.
    - The six collaborators ([SensorManager], [NutritionAnalyzer],
      [SupplementRecommender], [IntakeManager], [DataSecurity],
      [UserInterfaceManager]) are not part of the orchestrator: a call to
      one of them is answered by an oracle [respond], which sees the
      history of earlier calls and either returns a value or raises.
    - [datetime.datetime.now()] reads a clock, one reading per call.
    - Every method is a computation in a state-and-exception monad: an
      exception leaves the mutations made so far in place, as in Python.
    - Values are immutable: a collaborator neither keeps nor changes the
      objects it is handed, and what it hands out is not shared with the
      registry (the encrypted payload is an opaque blob).
    - Log lines are not modelled, except the one that stands for the notice
      to the healthcare provider. *)

From stdpp Require Import gmap strings list.
From Stdlib Require Import ZArith Ascii.

Set Warnings "-register-all".
Local Open Scope string_scope.
Local Open Scope Z_scope.

(** ** Python values *)

(** The values that cross the orchestrator's interface.  Floats are not
    modelled: the orchestrator never computes with the numbers it forwards. *)
Inductive val : Type :=
| VNone
| VBool (b : bool)
| VInt (n : Z)
| VStr (s : string)
| VDate (ordinal : Z)
| VList (items : list val)
| VDict (entries : list (string * val)).

Abbreviation pydict := (list (string * val)).

(** Python's truth value of an object. *)
Definition truthy (v : val) : bool :=
  match v with
  | VNone => false
  | VBool b => b
  | VInt n => negb (n =? 0)
  | VStr s => negb (String.eqb s "")
  | VDate _ => true
  | VList l => match l with [] => false | _ :: _ => true end
  | VDict d => match d with [] => false | _ :: _ => true end
  end.

(** [v == "lit"] for a string literal. *)
Definition eq_str (v : val) (lit : string) : bool :=
  match v with
  | VStr s => String.eqb s lit
  | _ => false
  end.

(** ** Dictionaries with string keys, in insertion order *)

Section Dict.
Context {V : Type}.

(** [d[k]] as an option; [None] stands for [KeyError]. *)
Fixpoint dict_get (d : list (string * V)) (k : string) : option V :=
  match d with
  | [] => None
  | (k', v) :: d' => if String.eqb k' k then Some v else dict_get d' k
  end.

(** [d.get(k, dflt)] *)
Definition dict_get_default (d : list (string * V)) (k : string) (dflt : V) : V :=
  default dflt (dict_get d k).

(** [k in d] *)
Definition dict_mem (d : list (string * V)) (k : string) : bool :=
  match dict_get d k with Some _ => true | None => false end.

(** [d[k] = v]: an existing key keeps its position, a new one goes last. *)
Fixpoint dict_set (d : list (string * V)) (k : string) (v : V) : list (string * V) :=
  match d with
  | [] => [(k, v)]
  | (k', v') :: d' =>
      if String.eqb k' k then (k, v) :: d' else (k', v') :: dict_set d' k v
  end.

(** [del d[k]], for a key that is present; a dict has no key twice. *)
Fixpoint dict_del (d : list (string * V)) (k : string) : list (string * V) :=
  match d with
  | [] => []
  | (k', v') :: d' =>
      if String.eqb k' k then dict_del d' k else (k', v') :: dict_del d' k
  end.
End Dict.

(** ** Dates and timestamps *)

(** A naive local [datetime]: the day as a proleptic Gregorian ordinal (what
    [date.toordinal()] gives) and the microseconds since midnight. *)
Record datetime := DateTime { dt_ordinal : Z; dt_micros : Z }.

(** [dt.date()], a [date] being its ordinal. *)
Definition date_of (t : datetime) : Z := dt_ordinal t.

Definition digit (n : Z) : ascii := ascii_of_nat (48 + Z.to_nat (n `mod` 10)).

(** The last [width] decimal digits of [n], zero padded ([%0<width>d]). *)
Fixpoint zfill (width : nat) (n : Z) (acc : string) : string :=
  match width with
  | O => acc
  | S w => zfill w (n `div` 10) (String (digit n) acc)
  end.

Definition days_before_month (m : Z) : Z :=
  nth (Z.to_nat m) [0; 0; 31; 59; 90; 120; 151; 181; 212; 243; 273; 304; 334] 0.

Definition days_in_month (leap : bool) (m : Z) : Z :=
  nth (Z.to_nat m) [0; 31; 28; 31; 30; 31; 30; 31; 31; 30; 31; 30; 31] 0
  + (if (m =? 2) && leap then 1 else 0).

(** Year, month and day of an ordinal, by the algorithm of CPython's
    [datetime._ord2ymd]. *)
Definition ord2ymd (ordinal : Z) : Z * Z * Z :=
  let n := ordinal - 1 in
  let n400 := n `div` 146097 in
  let n := n `mod` 146097 in
  let n100 := n `div` 36524 in
  let n := n `mod` 36524 in
  let n4 := n `div` 1461 in
  let n := n `mod` 1461 in
  let n1 := n `div` 365 in
  let n := n `mod` 365 in
  let year := n400 * 400 + 1 + n100 * 100 + n4 * 4 + n1 in
  if (n1 =? 4) || (n100 =? 4) then (year - 1, 12, 31)
  else
    let leap := (n1 =? 3) && (negb (n4 =? 24) || (n100 =? 3)) in
    let month := Z.shiftr (n + 50) 5 in
    let preceding :=
      days_before_month month + (if (2 <? month) && leap then 1 else 0) in
    if n <? preceding
    then (year, month - 1, n - (preceding - days_in_month leap (month - 1)) + 1)
    else (year, month, n - preceding + 1).

(** [date.isoformat()]: [YYYY-MM-DD]. *)
Definition date_isoformat (ordinal : Z) : string :=
  let '(y, m, d) := ord2ymd ordinal in
  zfill 4 y ("-" ++ zfill 2 m ("-" ++ zfill 2 d "")).

(** [datetime.isoformat()]: [YYYY-MM-DDTHH:MM:SS], then [.ffffff] when the
    microsecond is not zero. *)
Definition datetime_isoformat (t : datetime) : string :=
  let us := dt_micros t in
  let secs := us `div` 1000000 in
  let frac := us `mod` 1000000 in
  date_isoformat (dt_ordinal t) ++ "T"
  ++ zfill 2 (secs `div` 3600) (":" ++ zfill 2 ((secs `div` 60) `mod` 60)
       (":" ++ zfill 2 (secs `mod` 60)
          (if frac =? 0 then "" else "." ++ zfill 6 frac ""))).

(** ** Collaborators, exceptions and the state of the system *)

Inductive component := Sensor | Analyzer | Recommender | Intake | Security | UI.

(** A call [self.<target>.<meth>(args)]. *)
Record call := Call { target : component; meth : string; args : list val }.

(** What leaves the orchestrator: a collaborator call, or the notice to the
    healthcare provider that [_notify_healthcare_provider] writes. *)
Inductive event :=
| Invoked (c : call)
| ProviderNotified (user_id : string) (alert : val).

Inductive exn :=
| KeyError (key : string)
| TypeError
| AttributeError
| OverflowError
| Failure (reason : string).

Inductive outcome (A : Type) :=
| Ok (a : A)
| Raised (e : exn).
Arguments Ok {A} a.
Arguments Raised {A} e.

(** [is_running] and [active_users] are the attributes of [NutritionSystem];
    [events] is the history of what it sent out, [ticks] the number of clock
    readings taken so far. *)
Record state := State {
  is_running : bool;
  active_users : gmap string pydict;
  events : list event;
  ticks : nat
}.

Definition with_running (b : bool) (s : state) : state :=
  State b (active_users s) (events s) (ticks s).
Definition with_users (u : gmap string pydict) (s : state) : state :=
  State (is_running s) u (events s) (ticks s).
Definition log (e : event) (s : state) : state :=
  State (is_running s) (active_users s) (events s ++ [e]) (ticks s).
Definition tick (s : state) : state :=
  State (is_running s) (active_users s) (events s) (S (ticks s)).

(** The state of a fresh [NutritionSystem()]. *)
Definition init : state := State false ∅ [] 0.

(** ** The monad of methods *)

Definition M (A : Type) : Type := state -> outcome A * state.

Definition ret {A} (a : A) : M A := fun s => (Ok a, s).
Definition raise {A} (e : exn) : M A := fun s => (Raised e, s).
Definition bind {A B} (m : M A) (k : A -> M B) : M B :=
  fun s =>
    match m s with
    | (Ok a, s') => k a s'
    | (Raised e, s') => (Raised e, s')
    end.

Declare Scope py_scope.
Delimit Scope py_scope with py.
Notation "x <~ m ;; k" := (bind m (fun x => k))
  (at level 100, m at next level, right associativity) : py_scope.
Notation "m ;; k" := (bind m (fun _ => k))
  (at level 100, right associativity) : py_scope.
Local Open Scope py_scope.

(** [for x in l: body(x)] *)
Fixpoint for_each {A} (body : A -> M unit) (l : list A) : M unit :=
  match l with
  | [] => ret tt
  | x :: l' => body x ;; for_each body l'
  end.

(** [v.get(k, dflt)]: only a dict has the method. *)
Definition py_get (v : val) (k : string) (dflt : val) : M val :=
  match v with
  | VDict d => ret (dict_get_default d k dflt)
  | _ => raise AttributeError
  end.

(** The one-character strings of a string. *)
Fixpoint characters (s : string) : list val :=
  match s with
  | EmptyString => []
  | String c s' => VStr (String c EmptyString) :: characters s'
  end.

(** The items a [for] loop draws from a value. *)
Definition py_iter (v : val) : M (list val) :=
  match v with
  | VList l => ret l
  | VDict d => ret (map (fun kv => VStr (fst kv)) d)
  | VStr s => ret (characters s)
  | _ => raise TypeError
  end.

(** [for key, value in items: target[key] = value] with string keys: only a
    dict accepts the assignment. *)
Fixpoint py_update (target : val) (items : pydict) : M val :=
  match items with
  | [] => ret target
  | (k, v) :: rest =>
      match target with
      | VDict d => py_update (VDict (dict_set d k v)) rest
      | _ => raise TypeError
      end
  end.

(** [d1 - timedelta(days=n)], which overflows below [date.min]. *)
Definition date_minus_days (d n : Z) : M Z :=
  if d - n <? 1 then raise OverflowError else ret (d - n).

Definition not_registered : val :=
  VDict [("status", VStr "error"); ("message", VStr "User not registered")].

(** ** The methods of [NutritionSystem] *)

Section Orchestrator.
(** The collaborators' answer to a call, given everything sent so far. *)
Variable respond : list event -> call -> outcome val.
(** The successive readings of [datetime.datetime.now()]. *)
Variable clock : nat -> datetime.

Definition invoke (c : component) (m : string) (a : list val) : M val :=
  fun s => (respond (events s) (Call c m a), log (Invoked (Call c m a)) s).

Definition now : M datetime :=
  fun s => (Ok (clock (ticks s)), tick s).

(** [user_id in self.active_users] *)
Definition is_registered (user_id : string) : M bool :=
  fun s =>
    (Ok (match active_users s !! user_id with Some _ => true | None => false end), s).

(** [self.active_users[user_id]] *)
Definition get_profile (user_id : string) : M pydict :=
  fun s =>
    match active_users s !! user_id with
    | Some p => (Ok p, s)
    | None => (Raised (KeyError user_id), s)
    end.

(** [self.active_users[user_id][key]] *)
Definition profile_field (user_id key : string) : M val :=
  p <~ get_profile user_id ;;
  match dict_get p key with
  | Some v => ret v
  | None => raise (KeyError key)
  end.

(** [self.active_users[user_id][key] = v]: the stored dict is updated in
    place. *)
Definition set_profile_field (user_id key : string) (v : val) : M unit :=
  p <~ get_profile user_id ;;
  fun s => (Ok tt, with_users (<[user_id := dict_set p key v]> (active_users s)) s).

(** [self.active_users[user_id]["last_activity"] = datetime.datetime.now().isoformat()] *)
Definition update_last_activity (user_id : string) : M unit :=
  t <~ now ;;
  set_profile_field user_id "last_activity" (VStr (datetime_isoformat t)).

Definition start : M val :=
  fun s =>
    if is_running s then (Ok (VBool false), s)
    else
      (invoke Sensor "start" [] ;;
       invoke Analyzer "start" [] ;;
       invoke Recommender "start" [] ;;
       invoke Intake "start" [] ;;
       invoke Security "start" [] ;;
       invoke UI "start" [] ;;
       (fun s' => (Ok (VBool true), with_running true s'))) s.

Definition stop : M val :=
  fun s =>
    if negb (is_running s) then (Ok (VBool false), s)
    else
      (invoke UI "stop" [] ;;
       invoke Security "stop" [] ;;
       invoke Intake "stop" [] ;;
       invoke Recommender "stop" [] ;;
       invoke Analyzer "stop" [] ;;
       invoke Sensor "stop" [] ;;
       (fun s' => (Ok (VBool true), with_running false s'))) s.

(** [user_profile["components"][name] = token] on the local profile. *)
Definition set_component (profile : pydict) (name : string) (token : val) : pydict :=
  match dict_get profile "components" with
  | Some (VDict c) => dict_set profile "components" (VDict (dict_set c name token))
  | _ => profile
  end.

Definition register_user (user_id : string) (user_data : val) : M val :=
  known <~ is_registered user_id ;;
  if known then ret (VBool false)
  else
    encrypted_user_data <~ invoke Security "encrypt_user_data" [user_data] ;;
    registered_at <~ now ;;
    last_activity <~ now ;;
    let user_profile :=
      [("id", VStr user_id);
       ("encrypted_data", encrypted_user_data);
       ("registered_at", VStr (datetime_isoformat registered_at));
       ("last_activity", VStr (datetime_isoformat last_activity));
       ("components", VDict [])] in
    t <~ invoke Sensor "register_user" [VStr user_id; user_data] ;;
    let user_profile := set_component user_profile "sensor" t in
    t <~ invoke Analyzer "register_user" [VStr user_id; user_data] ;;
    let user_profile := set_component user_profile "analyzer" t in
    t <~ invoke Recommender "register_user" [VStr user_id; user_data] ;;
    let user_profile := set_component user_profile "recommender" t in
    t <~ invoke Intake "register_user" [VStr user_id; user_data] ;;
    let user_profile := set_component user_profile "intake_manager" t in
    t <~ invoke UI "register_user" [VStr user_id; user_data] ;;
    let user_profile := set_component user_profile "ui" t in
    (fun s => (Ok tt, with_users (<[user_id := user_profile]> (active_users s)) s)) ;;
    ret (VBool true).

Definition update_recommendations (user_id : string) (analysis_result : val) : M val :=
  known <~ is_registered user_id ;;
  if negb known then ret not_registered
  else
    recommendations <~ invoke Recommender "recommend" [VStr user_id; analysis_result] ;;
    invoke Intake "update_schedule" [VStr user_id; recommendations] ;;
    invoke UI "update_supplement_data" [VStr user_id; recommendations] ;;
    ret (VDict [("status", VStr "success"); ("recommendations", recommendations)]).

Definition record_supplement_intake
    (user_id : string) (supplement_id intake_time : val) : M val :=
  known <~ is_registered user_id ;;
  if negb known then ret not_registered
  else
    update_last_activity user_id ;;
    result <~ invoke Intake "record_intake" [VStr user_id; supplement_id; intake_time] ;;
    invoke UI "update_intake_status" [VStr user_id; result] ;;
    ret (VDict [("status", VStr "success"); ("result", result)]).

(** The body only writes the log line that stands for the notice. *)
Definition notify_healthcare_provider (user_id : string) (alert : val) : M unit :=
  fun s => (Ok tt, log (ProviderNotified user_id alert) s).

Definition handle_health_alert (user_id : string) (alert : val) : M val :=
  py_get alert "message" VNone ;;
  severity <~ py_get alert "severity" (VStr "medium") ;;
  (if eq_str severity "high" then
     invoke UI "send_urgent_notification" [VStr user_id; alert] ;;
     profile <~ get_profile user_id ;;
     if truthy (dict_get_default profile "notify_healthcare_provider" (VBool false))
     then notify_healthcare_provider user_id alert
     else ret tt
   else if eq_str severity "medium" then
     invoke UI "send_notification" [VStr user_id; alert] ;; ret tt
   else
     invoke UI "add_to_health_report" [VStr user_id; alert] ;; ret tt) ;;
  ret (VDict [("status", VStr "success"); ("alert_handled", VBool true)]).

Definition process_sensor_data (user_id : string) (sensor_data : val) : M val :=
  known <~ is_registered user_id ;;
  if negb known then ret not_registered
  else
    update_last_activity user_id ;;
    validated_data <~ invoke Sensor "process_data" [VStr user_id; sensor_data] ;;
    analysis_result <~ invoke Analyzer "analyze" [VStr user_id; validated_data] ;;
    flag <~ py_get analysis_result "update_recommendation" (VBool false) ;;
    (if truthy flag
     then update_recommendations user_id analysis_result ;; ret tt
     else ret tt) ;;
    alerts <~ py_get analysis_result "alerts" (VList []) ;;
    items <~ py_iter alerts ;;
    for_each (fun alert => handle_health_alert user_id alert ;; ret tt) items ;;
    invoke UI "update_health_data" [VStr user_id; analysis_result] ;;
    ret (VDict [("status", VStr "success"); ("result", analysis_result)]).

Definition get_user_dashboard (user_id : string) : M val :=
  known <~ is_registered user_id ;;
  if negb known then ret not_registered
  else
    update_last_activity user_id ;;
    health_data <~ invoke Analyzer "get_health_data" [VStr user_id] ;;
    supplement_data <~ invoke Intake "get_schedule" [VStr user_id] ;;
    compliance_data <~ invoke Intake "get_compliance_rate" [VStr user_id] ;;
    let dashboard_data :=
      [("health_data", health_data);
       ("supplement_data", supplement_data);
       ("compliance_data", compliance_data)] in
    ret (VDict [("status", VStr "success"); ("dashboard", VDict dashboard_data)]).

Definition invalid_report_type (report_type : string) : val :=
  VDict [("status", VStr "error");
         ("message", VStr ("Invalid report type: " ++ report_type))].

(** The rest of [get_health_report] once the window is known. *)
Definition compose_report (user_id report_type : string) (start_date end_date : Z) : M val :=
  let window := [VStr user_id; VDate start_date; VDate end_date] in
  health_data <~ invoke Analyzer "get_health_data" window ;;
  supplement_data <~ invoke Intake "get_intake_history" window ;;
  compliance_data <~ invoke Intake "get_compliance_rate" window ;;
  trends <~ invoke Analyzer "get_trends" window ;;
  generated_at <~ now ;;
  let report :=
    [("user_id", VStr user_id);
     ("report_type", VStr report_type);
     ("start_date", VStr (date_isoformat start_date));
     ("end_date", VStr (date_isoformat end_date));
     ("generated_at", VStr (datetime_isoformat generated_at));
     ("health_data", health_data);
     ("supplement_data", supplement_data);
     ("compliance_data", compliance_data);
     ("trends", trends)] in
  ret (VDict [("status", VStr "success"); ("report", VDict report)]).

Definition get_health_report (user_id report_type : string) : M val :=
  known <~ is_registered user_id ;;
  if negb known then ret not_registered
  else
    update_last_activity user_id ;;
    today <~ now ;;
    let end_date := date_of today in
    if String.eqb report_type "daily" then
      compose_report user_id report_type end_date end_date
    else if String.eqb report_type "weekly" then
      start_date <~ date_minus_days end_date 7 ;;
      compose_report user_id report_type start_date end_date
    else if String.eqb report_type "monthly" then
      start_date <~ date_minus_days end_date 30 ;;
      compose_report user_id report_type start_date end_date
    else ret (invalid_report_type report_type).

(** ["password" in user_data] for a string or a list. *)
Definition mentions_password (user_data : val) : bool :=
  match user_data with
  | VStr s => match String.index 0 "password" s with Some _ => true | None => false end
  | VList l => existsb (fun v => eq_str v "password") l
  | _ => false
  end.

Definition get_user_profile (user_id : string) : M val :=
  known <~ is_registered user_id ;;
  if negb known then ret not_registered
  else
    update_last_activity user_id ;;
    encrypted_user_data <~ profile_field user_id "encrypted_data" ;;
    user_data <~ invoke Security "decrypt_user_data" [encrypted_user_data] ;;
    match user_data with
    | VDict d =>
        let d := if dict_mem d "password" then dict_del d "password" else d in
        registered_at <~ profile_field user_id "registered_at" ;;
        let d := dict_set d "registered_at" registered_at in
        last_activity <~ profile_field user_id "last_activity" ;;
        let d := dict_set d "last_activity" last_activity in
        ret (VDict [("status", VStr "success"); ("profile", VDict d)])
    | VStr _ | VList _ =>
        (* [in] works, but neither [del] nor item assignment by a string does *)
        if mentions_password user_data then raise TypeError
        else profile_field user_id "registered_at" ;; raise TypeError
    | _ => raise TypeError
    end.

(** [if update_data.get(toggle, False): self.<c>.update_user_settings(...)] *)
Definition forward_settings (c : component) (toggle user_id : string)
    (update_data : pydict) : M unit :=
  if truthy (dict_get_default update_data toggle (VBool false))
  then invoke c "update_user_settings" [VStr user_id; VDict update_data] ;; ret tt
  else ret tt.

Definition update_user_profile (user_id : string) (update_data : pydict) : M val :=
  known <~ is_registered user_id ;;
  if negb known then ret not_registered
  else
    update_last_activity user_id ;;
    encrypted_user_data <~ profile_field user_id "encrypted_data" ;;
    user_data <~ invoke Security "decrypt_user_data" [encrypted_user_data] ;;
    user_data <~ py_update user_data update_data ;;
    updated_encrypted_data <~ invoke Security "encrypt_user_data" [user_data] ;;
    set_profile_field user_id "encrypted_data" updated_encrypted_data ;;
    forward_settings Sensor "update_sensor_settings" user_id update_data ;;
    forward_settings Analyzer "update_analysis_settings" user_id update_data ;;
    forward_settings Recommender "update_recommendation_settings" user_id update_data ;;
    forward_settings Intake "update_intake_settings" user_id update_data ;;
    forward_settings UI "update_ui_settings" user_id update_data ;;
    ret (VDict [("status", VStr "success");
                ("message", VStr "Profile updated successfully")]).

End Orchestrator.

(** ** Vocabulary of the properties *)

(** Collaborators that answer every call. *)
Definition never_raises (respond : list event -> call -> outcome val) : Prop :=
  forall h c, exists v, respond h c = Ok v.

(** The answer of such collaborators. *)
Definition answer (respond : list event -> call -> outcome val)
    (h : list event) (c : call) : val :=
  match respond h c with
  | Ok v => v
  | Raised _ => VNone
  end.

(** The state after [self.active_users[user_id]["last_activity"] = now]. *)
Definition touched (clock : nat -> datetime) (user_id : string) (p : pydict)
    (s : state) : state :=
  tick (with_users
          (<[user_id := dict_set p "last_activity"
                          (VStr (datetime_isoformat (clock (ticks s))))]>
             (active_users s)) s).

(** The components in the order [start] visits them. *)
Definition start_order : list component :=
  [Sensor; Analyzer; Recommender; Intake; Security; UI].

Definition lifecycle_calls (m : string) (cs : list component) : list event :=
  map (fun c => Invoked (Call c m [])) cs.

(** The window of a report in the words of the specification: daily is
    [today, today], weekly [today - 7 days, today], monthly
    [today - 30 days, today]; no other report type has one. *)
Definition spec_window (report_type : string) (today : Z) : option (Z * Z) :=
  if String.eqb report_type "daily" then Some (today, today)
  else if String.eqb report_type "weekly" then Some (today - 7, today)
  else if String.eqb report_type "monthly" then Some (today - 30, today)
  else None.

(** The four queries of a health report over a window of dates. *)
Definition report_queries (user_id : string) (w : Z * Z) : list event :=
  let window := [VStr user_id; VDate (fst w); VDate (snd w)] in
  [Invoked (Call Analyzer "get_health_data" window);
   Invoked (Call Intake "get_intake_history" window);
   Invoked (Call Intake "get_compliance_rate" window);
   Invoked (Call Analyzer "get_trends" window)].

Definition success (key : string) (payload : val) : val :=
  VDict [("status", VStr "success"); (key, payload)].

(** The severities of the specification and their spelling in an alert. *)
Inductive severity := Low | Medium | High.

Definition severity_name (sv : severity) : string :=
  match sv with
  | Low => "low"
  | Medium => "medium"
  | High => "high"
  end.

(** The user's [notify_healthcare_provider] setting as the router reads it
    from the registry entry. *)
Definition notifies_provider (profile : pydict) : bool :=
  truthy (dict_get_default profile "notify_healthcare_provider" (VBool false)).

(** The fan-out of an alert in the words of the specification: high sends
    one urgent notification and, when the setting is on, one notice to the
    healthcare provider; medium sends one standard notification; low only
    appends to the health report. *)
Definition spec_fan_out (sv : severity) (notify_provider : bool)
    (user_id : string) (alert : val) : list event :=
  match sv with
  | High =>
      Invoked (Call UI "send_urgent_notification" [VStr user_id; alert])
      :: (if notify_provider then [ProviderNotified user_id alert] else [])
  | Medium => [Invoked (Call UI "send_notification" [VStr user_id; alert])]
  | Low => [Invoked (Call UI "add_to_health_report" [VStr user_id; alert])]
  end.

Definition alert_handled : val :=
  VDict [("status", VStr "success"); ("alert_handled", VBool true)].

(** The router sent for [alert] exactly what severity [sv] asks for, no
    notice to the provider included. *)
Definition handled_as (sv : severity)
    (respond : list event -> call -> outcome val)
    (user_id : string) (alert : val) (s : state) : Prop :=
  events (snd (handle_health_alert respond user_id alert s))
  = (events s ++ spec_fan_out sv false user_id alert)%list.

(** ** A small world to run the methods in *)

Definition demo_analysis : val :=
  VDict [("update_recommendation", VBool true);
         ("alerts", VList [VDict [("message", VStr "Low iron"); ("severity", VStr "high")];
                           VDict [("message", VStr "Drink water")]])].

(** Collaborators that accept everything; the security component seals a
    payload by wrapping it. *)
Definition demo_respond (h : list event) (c : call) : outcome val :=
  match target c with
  | Security =>
      if String.eqb (meth c) "encrypt_user_data" then Ok (VList (VStr "sealed" :: args c))
      else if String.eqb (meth c) "decrypt_user_data" then
        match args c with
        | [VList [_; d]] => Ok d
        | _ => Ok VNone
        end
      else Ok VNone
  | Analyzer =>
      if String.eqb (meth c) "analyze" then Ok demo_analysis
      else if String.eqb (meth c) "register_user" then Ok (VBool true)
      else Ok VNone
  | _ => if String.eqb (meth c) "register_user" then Ok (VBool true) else Ok VNone
  end.

(** A clock that advances by a microsecond per reading, on 2024-06-10. *)
Definition demo_clock (n : nat) : datetime :=
  DateTime 739047 (45296000000 + Z.of_nat n).

(** The registration data of [main], with a password added. *)
Definition demo_payload : pydict :=
  [("name", VStr "John Doe");
   ("email", VStr "john.doe@example.com");
   ("password", VStr "hunter2");
   ("age", VInt 35);
   ("gender", VStr "male");
   ("height", VInt 175);
   ("weight", VInt 70);
   ("notify_healthcare_provider", VBool true);
   ("healthcare_provider",
    VDict [("name", VStr "Dr. Smith"); ("email", VStr "dr.smith@example.com")])].

Definition demo_user_data : val := VDict demo_payload.

(** The system after [register_user("user123", ...)] on a fresh instance. *)
Definition demo_registered : state :=
  snd (register_user demo_respond demo_clock "user123" demo_user_data init).

Definition demo_profile : pydict :=
  default [] (active_users demo_registered !! "user123").

(** The same system with the provider setting switched on in the registry
    entry. *)
Definition demo_flagged : state :=
  with_users
    (<["user123" := dict_set demo_profile "notify_healthcare_provider" (VBool true)]>
       (active_users demo_registered))
    demo_registered.

Definition high_alert : pydict :=
  [("message", VStr "Low iron"); ("severity", VStr "high")].

Definition critical_alert : pydict :=
  [("message", VStr "Low iron"); ("severity", VStr "critical")].

(** The calls of a registration, in the order [register_user] makes them. *)
Definition registration_calls (user_id : string) (user_data : val) : list call :=
  Call Security "encrypt_user_data" [user_data]
  :: map (fun c => Call c "register_user" [VStr user_id; user_data])
       [Sensor; Analyzer; Recommender; Intake; UI].

(** Each call of [cs], made in turn after the history [h], is answered. *)
Fixpoint all_return (respond : list event -> call -> outcome val)
    (h : list event) (cs : list call) : Prop :=
  match cs with
  | [] => True
  | c :: cs' => (exists v, respond h c = Ok v) /\ all_return respond (h ++ [Invoked c]) cs'
  end.

(** Component [c] is called somewhere after the first [n] events of [l]. *)
Definition called_after (n : nat) (c : component) (l : list event) : Prop :=
  exists k, In (Invoked k) (drop n l) /\ target k = c.

(** The demo collaborators with a recommender that refuses registrations. *)
Definition recommender_down (h : list event) (c : call) : outcome val :=
  match target c with
  | Recommender =>
      if String.eqb (meth c) "register_user"
      then Raised (Failure "recommender unavailable")
      else demo_respond h c
  | _ => demo_respond h c
  end.

(** The contract of the security component: encryption answers, and
    decrypting what it produced gives the payload back whenever asked. *)
Definition security_round_trip (respond : list event -> call -> outcome val) : Prop :=
  forall h payload,
    exists sealed,
      respond h (Call Security "encrypt_user_data" [payload]) = Ok sealed
      /\ forall h', respond h' (Call Security "decrypt_user_data" [sealed]) = Ok payload.

Definition profile_updated : val :=
  VDict [("status", VStr "success"); ("message", VStr "Profile updated successfully")].

(** The [last_activity] stamp of a user in the registry. *)
Definition last_activity_of (s : state) (user_id : string) : option val :=
  match active_users s !! user_id with
  | Some p => dict_get p "last_activity"
  | None => None
  end.

(** A computation that leaves the [last_activity] stamp of [user_id] alone,
    whatever its outcome. *)
Definition keeps_stamp {A} (user_id : string) (m : M A) : Prop :=
  forall s, last_activity_of (snd (m s)) user_id = last_activity_of s user_id.

(** A registry entry has the fields the operations read back. *)
Definition entry_ok (p : pydict) : Prop :=
  is_Some (dict_get p "encrypted_data")
  /\ is_Some (dict_get p "registered_at")
  /\ is_Some (dict_get p "last_activity").

Definition registry_ok (s : state) : Prop :=
  forall u p, active_users s !! u = Some p -> entry_ok p.

(** A computation that keeps the registry well formed, whatever its outcome. *)
Definition preserves_ok {A} (m : M A) : Prop :=
  forall s, registry_ok s -> registry_ok (snd (m s)).

(** ** Vocabulary of the further properties *)

(** The state once the events [es] have been sent. *)
Definition log_all (es : list event) (s : state) : state :=
  State (is_running s) (active_users s) (events s ++ es) (ticks s).

(** A computation that only sends events: the registry, the running flag
    and the clock are as before, whatever its outcome. *)
Definition only_logs {A} (m : M A) : Prop :=
  forall s, exists es, snd (m s) = log_all es s.

(** A computation that may write the entry of [user_id] but leaves the
    running flag and the entry of every other user alone, and removes no
    user from the registry. *)
Definition only_touches {A} (user_id : string) (m : M A) : Prop :=
  forall s,
    is_running (snd (m s)) = is_running s
    /\ (forall u, u <> user_id -> active_users (snd (m s)) !! u = active_users s !! u)
    /\ (forall u, is_Some (active_users s !! u) -> is_Some (active_users (snd (m s)) !! u)).

(** What the router sends for an alert dict, by the branches of
    [handle_health_alert]. *)
Definition dispatch (notify_provider : bool) (user_id : string) (alert : pydict)
    : list event :=
  let severity := dict_get_default alert "severity" (VStr "medium") in
  if eq_str severity "high" then
    Invoked (Call UI "send_urgent_notification" [VStr user_id; VDict alert])
    :: (if notify_provider then [ProviderNotified user_id (VDict alert)] else [])
  else if eq_str severity "medium" then
    [Invoked (Call UI "send_notification" [VStr user_id; VDict alert])]
  else [Invoked (Call UI "add_to_health_report" [VStr user_id; VDict alert])].

(** The three calls of [update_recommendations]. *)
Definition recommendation_events (user_id : string) (analysis_result recommendations : val)
    : list event :=
  [Invoked (Call Recommender "recommend" [VStr user_id; analysis_result]);
   Invoked (Call Intake "update_schedule" [VStr user_id; recommendations]);
   Invoked (Call UI "update_supplement_data" [VStr user_id; recommendations])].

(** [d] after [for key, value in patch.items(): d[key] = value]. *)
Definition merge (d patch : pydict) : pydict :=
  fold_left (fun acc kv => dict_set acc (fst kv) (snd kv)) patch d.

(** The toggles of a profile patch and the component each one addresses, in
    the order [update_user_profile] tests them. *)
Definition settings_toggles : list (string * component) :=
  [("update_sensor_settings", Sensor);
   ("update_analysis_settings", Analyzer);
   ("update_recommendation_settings", Recommender);
   ("update_intake_settings", Intake);
   ("update_ui_settings", UI)].

(** One [update_user_settings] call per toggle that is on in the patch. *)
Definition settings_forwards (user_id : string) (patch : pydict) : list event :=
  map (fun tc => Invoked (Call (snd tc) "update_user_settings" [VStr user_id; VDict patch]))
    (List.filter (fun tc => truthy (dict_get_default patch (fst tc) (VBool false)))
       settings_toggles).

(** The profile [get_user_profile] builds from a decrypted payload. *)
Definition view_of (payload : pydict) (registered_at last_activity : val) : pydict :=
  dict_set
    (dict_set (if dict_mem payload "password" then dict_del payload "password" else payload)
       "registered_at" registered_at)
    "last_activity" last_activity.

(** The answers to the calls [cs] made in turn after the history [h]. *)
Fixpoint answers (respond : list event -> call -> outcome val)
    (h : list event) (cs : list call) : list val :=
  match cs with
  | [] => []
  | c :: cs' => answer respond h c :: answers respond (h ++ [Invoked c]) cs'
  end.

(** The registry entry of a user registered at clock readings [t1] and [t2]
    with the sealed payload and the five tokens in [tokens]. *)
Definition entry_of (user_id : string) (t1 t2 : datetime) (tokens : list val) : pydict :=
  [("id", VStr user_id);
   ("encrypted_data", nth 0 tokens VNone);
   ("registered_at", VStr (datetime_isoformat t1));
   ("last_activity", VStr (datetime_isoformat t2));
   ("components",
    VDict [("sensor", nth 1 tokens VNone);
           ("analyzer", nth 2 tokens VNone);
           ("recommender", nth 3 tokens VNone);
           ("intake_manager", nth 4 tokens VNone);
           ("ui", nth 5 tokens VNone)])].

(** The keys [get_user_profile] decides itself. *)
Definition reserved_key (k : string) : Prop :=
  k = "password" \/ k = "registered_at" \/ k = "last_activity".

(** The findings of [demo_analysis]. *)
Definition demo_findings : pydict :=
  [("update_recommendation", VBool true);
   ("alerts", VList [VDict [("message", VStr "Low iron"); ("severity", VStr "high")];
                     VDict [("message", VStr "Drink water")]])].

(** An analysis that asks for no new recommendation and carries two alerts,
    the first without a severity. *)
Definition quiet_findings : pydict :=
  [("alerts", VList [VDict [("message", VStr "Drink water")];
                     VDict [("message", VStr "Low iron"); ("severity", VStr "high")]])].

(** The demo collaborators with that analysis and a user interface that
    refuses to send standard notifications. *)
Definition ui_down (h : list event) (c : call) : outcome val :=
  match target c with
  | UI =>
      if String.eqb (meth c) "send_notification"
      then Raised (Failure "ui unavailable")
      else demo_respond h c
  | Analyzer =>
      if String.eqb (meth c) "analyze" then Ok (VDict quiet_findings)
      else demo_respond h c
  | _ => demo_respond h c
  end.

(** The demo collaborators with an analyzer that answers with a list. *)
Definition analyzer_confused (h : list event) (c : call) : outcome val :=
  match target c with
  | Analyzer =>
      if String.eqb (meth c) "analyze" then Ok (VList []) else demo_respond h c
  | _ => demo_respond h c
  end.

(** A patch that changes the age, adds a password and asks the intake
    manager and the sensor manager to refresh their settings. *)
Definition demo_patch : pydict :=
  [("age", VInt 36);
   ("password", VStr "correct horse");
   ("update_intake_settings", VBool true);
   ("update_ui_settings", VBool false);
   ("update_sensor_settings", VInt 1)].

(** What [process_sensor_data] sends when every stage answers: validation,
    analysis, the recommendation update when the analysis asks for it, the
    alerts in their order, and the update of the user interface. *)
Definition pipeline_events (notify_provider : bool) (user_id : string)
    (sensor_data validated : val) (analysis : pydict) (recommendations : val)
    (alerts : list pydict) : list event :=
  ([Invoked (Call Sensor "process_data" [VStr user_id; sensor_data]);
    Invoked (Call Analyzer "analyze" [VStr user_id; validated])]
   ++ (if truthy (dict_get_default analysis "update_recommendation" (VBool false))
       then recommendation_events user_id (VDict analysis) recommendations
       else [])
   ++ concat (map (dispatch notify_provider user_id) alerts)
   ++ [Invoked (Call UI "update_health_data" [VStr user_id; VDict analysis])])%list.

(** A value that is not a dict. *)
Definition not_a_dict (v : val) : Prop :=
  match v with
  | VDict _ => False
  | _ => True
  end.

(** The calls of [start] or [stop] over the components [cs]. *)
Definition lifecycle_requests (m : string) (cs : list component) : list call :=
  map (fun c => Call c m []) cs.

(** The demo collaborators with an intake manager that can neither be
    started nor stopped. *)
Definition intake_down (h : list event) (c : call) : outcome val :=
  match target c, args c with
  | Intake, [] => Raised (Failure "intake manager unavailable")
  | _, _ => demo_respond h c
  end.

(** The demo system with a stored payload that is not a sealed one. *)
Definition demo_corrupt : state :=
  with_users
    (<["user123" := dict_set demo_profile "encrypted_data" (VStr "garbage")]>
       (active_users demo_registered))
    demo_registered.

(** The profile the demo user reads right after the registration. *)
Definition demo_view : pydict :=
  match fst (get_user_profile demo_respond demo_clock "user123" demo_registered) with
  | Ok (VDict [_; (_, VDict view)]) => view
  | _ => []
  end.

(** A computation that never looks at the running flag: run on a system
    with the flag set to [b] it gives the same outcome and the same state,
    up to that flag. *)
Definition ignores_running {A} (m : M A) : Prop :=
  forall b s, m (with_running b s) = (fst (m s), with_running b (snd (m s))).

(** ** Facts about dictionaries and dates *)

Section DictFacts.
Context {V : Type}.
Implicit Types (d : list (string * V)) (k : string) (v : V).

Lemma dict_get_set_eq d k v : dict_get (dict_set d k v) k = Some v.
Proof.
  induction d as [|[k' v'] d IH]; simpl.
  - by rewrite String.eqb_refl.
  - destruct (String.eqb k' k) eqn:E; simpl.
    + by rewrite String.eqb_refl.
    + by rewrite E.
Qed.

Lemma dict_get_set_ne d k k' v : k <> k' -> dict_get (dict_set d k v) k' = dict_get d k'.
Proof.
  intros Hne. induction d as [|[k0 v0] d IH]; simpl.
  - destruct (String.eqb k k') eqn:E; [|done].
    apply String.eqb_eq in E. congruence.
  - destruct (String.eqb k0 k) eqn:E; simpl.
    + apply String.eqb_eq in E. subst k0.
      destruct (String.eqb k k') eqn:E'; [|done].
      apply String.eqb_eq in E'. congruence.
    + by rewrite IH.
Qed.

Lemma dict_get_del_eq d k : dict_get (dict_del d k) k = None.
Proof.
  induction d as [|[k' v'] d IH]; simpl; [done|].
  destruct (String.eqb k' k) eqn:E; simpl; [done|]. by rewrite E.
Qed.

Lemma dict_get_del_ne d k k' : k <> k' -> dict_get (dict_del d k) k' = dict_get d k'.
Proof.
  intros Hne. induction d as [|[k0 v0] d IH]; simpl; [done|].
  destruct (String.eqb k0 k) eqn:E; simpl.
  - apply String.eqb_eq in E. subst k0.
    destruct (String.eqb k k') eqn:E'; [|done].
    apply String.eqb_eq in E'. congruence.
  - by rewrite IH.
Qed.

Lemma dict_mem_true d k : dict_mem d k = true <-> is_Some (dict_get d k).
Proof.
  unfold dict_mem. destruct (dict_get d k); split; try done.
Qed.
End DictFacts.

Example isoformat_2024_06_10 :
  date_isoformat 739047 = "2024-06-10"
  /\ date_isoformat (739047 - 7) = "2024-06-03"
  /\ date_isoformat 719163 = "1970-01-01"
  /\ date_isoformat 738946 = "2024-03-01"
  /\ date_isoformat 738945 = "2024-02-29"
  /\ date_isoformat 730485 = "2000-12-31"
  /\ date_isoformat 1 = "0001-01-01"
  /\ datetime_isoformat (DateTime 739047 45296000250) = "2024-06-10T12:34:56.000250"
  /\ datetime_isoformat (DateTime 739047 86399000000) = "2024-06-10T23:59:59".
Proof. vm_compute. repeat split. Qed.

(** ** Running a method step by step *)

Lemma bind_ok {A B} (m : M A) (k : A -> M B) s a s' :
  m s = (Ok a, s') -> bind m k s = k a s'.
Proof. unfold bind. by intros ->. Qed.

Lemma bind_raised {A B} (m : M A) (k : A -> M B) s e s' :
  m s = (Raised e, s') -> bind m k s = (Raised e, s').
Proof. unfold bind. by intros ->. Qed.

Lemma never_raises_answer respond h c :
  never_raises respond -> respond h c = Ok (answer respond h c).
Proof. intros H. unfold answer. by destruct (H h c) as [v ->]. Qed.

Section Steps.
Variable respond : list event -> call -> outcome val.
Variable clock : nat -> datetime.

Lemma invoke_returns c m a s v :
  respond (events s) (Call c m a) = Ok v ->
  invoke respond c m a s = (Ok v, log (Invoked (Call c m a)) s).
Proof. unfold invoke. by intros ->. Qed.

Lemma is_registered_known user_id s p :
  active_users s !! user_id = Some p -> is_registered user_id s = (Ok true, s).
Proof. unfold is_registered. by intros ->. Qed.

Lemma is_registered_unknown user_id s :
  active_users s !! user_id = None -> is_registered user_id s = (Ok false, s).
Proof. unfold is_registered. by intros ->. Qed.

Lemma profile_field_known user_id key s p v :
  active_users s !! user_id = Some p -> dict_get p key = Some v ->
  profile_field user_id key s = (Ok v, s).
Proof.
  intros Hp Hv. unfold profile_field, bind, get_profile. by rewrite Hp, Hv.
Qed.

Lemma update_last_activity_known user_id s p :
  active_users s !! user_id = Some p ->
  update_last_activity clock user_id s = (Ok tt, touched clock user_id p s).
Proof.
  intros Hp. unfold update_last_activity, set_profile_field, bind, now, get_profile.
  simpl. by rewrite Hp.
Qed.

Lemma touched_lookup user_id p s :
  active_users (touched clock user_id p s) !! user_id
  = Some (dict_set p "last_activity" (VStr (datetime_isoformat (clock (ticks s))))).
Proof. unfold touched. simpl. by rewrite lookup_insert_eq. Qed.

Lemma touched_events user_id p s : events (touched clock user_id p s) = events s.
Proof. done. Qed.
End Steps.

(** ** What never touches the last-activity stamp *)

Create HintDb stamp.

Section Frame.
Variable respond : list event -> call -> outcome val.
Variable clock : nat -> datetime.
Variable user_id : string.

Lemma keeps_ret {A} (a : A) : keeps_stamp user_id (ret a).
Proof. by intros s. Qed.

Lemma keeps_raise {A} e : keeps_stamp user_id (@raise A e).
Proof. by intros s. Qed.

Lemma keeps_bind {A B} (m : M A) (k : A -> M B) :
  keeps_stamp user_id m -> (forall a, keeps_stamp user_id (k a)) ->
  keeps_stamp user_id (bind m k).
Proof.
  intros Hm Hk s. unfold bind. specialize (Hm s).
  destruct (m s) as [[a|e] s1]; simpl in *; [|done].
  by rewrite Hk.
Qed.

Lemma keeps_invoke c m a : keeps_stamp user_id (invoke respond c m a).
Proof. by intros s. Qed.

Lemma keeps_now : keeps_stamp user_id (now clock).
Proof. by intros s. Qed.

Lemma keeps_get_profile u : keeps_stamp user_id (get_profile u).
Proof. intros s. unfold get_profile. by destruct (active_users s !! u). Qed.

Lemma keeps_profile_field u k : keeps_stamp user_id (profile_field u k).
Proof.
  apply keeps_bind; [apply keeps_get_profile|]. intros p.
  destruct (dict_get p k); [apply keeps_ret | apply keeps_raise].
Qed.

Lemma keeps_set_profile_field u k v :
  k <> "last_activity" -> keeps_stamp user_id (set_profile_field u k v).
Proof.
  intros Hk s. unfold set_profile_field, bind, get_profile.
  destruct (active_users s !! u) as [p|] eqn:Hp; simpl; [|done].
  unfold last_activity_of. simpl.
  destruct (decide (u = user_id)) as [->|Hne].
  - rewrite lookup_insert_eq, Hp. by apply dict_get_set_ne.
  - by rewrite lookup_insert_ne.
Qed.

Lemma keeps_py_get v k dflt : keeps_stamp user_id (py_get v k dflt).
Proof. destruct v; first [apply keeps_ret | apply keeps_raise]. Qed.

Lemma keeps_py_iter v : keeps_stamp user_id (py_iter v).
Proof. destruct v; first [apply keeps_ret | apply keeps_raise]. Qed.

Lemma keeps_py_update items : forall target, keeps_stamp user_id (py_update target items).
Proof.
  induction items as [|[k v] items IH]; intros target; simpl.
  - apply keeps_ret.
  - destruct target; first [apply IH | apply keeps_raise].
Qed.

Lemma keeps_date_minus_days d n : keeps_stamp user_id (date_minus_days d n).
Proof.
  unfold date_minus_days. destruct (d - n <? 1); [apply keeps_raise | apply keeps_ret].
Qed.

Lemma keeps_notify u alert : keeps_stamp user_id (notify_healthcare_provider u alert).
Proof. by intros s. Qed.

Lemma keeps_for_each {A} (body : A -> M unit) l :
  (forall x, keeps_stamp user_id (body x)) -> keeps_stamp user_id (for_each body l).
Proof.
  intros Hbody. induction l as [|x l IH]; simpl.
  - apply keeps_ret.
  - apply keeps_bind; [apply Hbody | by intros _].
Qed.

Lemma keeps_is_registered u : keeps_stamp user_id (is_registered u).
Proof. by intros s. Qed.

#[local] Hint Resolve keeps_ret keeps_raise keeps_invoke keeps_now keeps_get_profile
  keeps_profile_field keeps_py_get keeps_py_iter keeps_py_update
  keeps_date_minus_days keeps_notify keeps_is_registered : stamp.

Ltac keeps :=
  repeat first
    [ progress cbv zeta
    | solve [auto with stamp]
    | apply keeps_set_profile_field; done
    | apply keeps_bind; [|intros ?]
    | match goal with
      | |- keeps_stamp _ (if ?b then _ else _) => destruct b
      | |- keeps_stamp _ (match ?v with _ => _ end) => destruct v
      end ].

Lemma keeps_update_recommendations u a :
  keeps_stamp user_id (update_recommendations respond u a).
Proof. unfold update_recommendations. keeps. Qed.

Lemma keeps_handle_health_alert u alert :
  keeps_stamp user_id (handle_health_alert respond u alert).
Proof. unfold handle_health_alert. keeps. Qed.

Lemma keeps_compose_report u t d1 d2 :
  keeps_stamp user_id (compose_report respond clock u t d1 d2).
Proof. unfold compose_report. keeps. Qed.

Lemma keeps_forward_settings c toggle u patch :
  keeps_stamp user_id (forward_settings respond c toggle u patch).
Proof. unfold forward_settings. keeps. Qed.

#[local] Hint Resolve keeps_update_recommendations keeps_handle_health_alert
  keeps_compose_report keeps_forward_settings : stamp.

Lemma stamp_of_touched p s :
  last_activity_of (touched clock user_id p s) user_id
  = Some (VStr (datetime_isoformat (clock (ticks s)))).
Proof. unfold last_activity_of. rewrite touched_lookup. apply dict_get_set_eq. Qed.

(** X13. The six sibling operations of [update_recommendations] stamp the
    last activity of a registered user with the clock reading they take
    first, whatever happens afterwards: the stamp stays when a collaborator
    raises or when the operation returns an error. *)
Lemma siblings_stamp_last_activity (s : state) :
  is_Some (active_users s !! user_id) ->
  let stamp := Some (VStr (datetime_isoformat (clock (ticks s)))) in
  (forall d, last_activity_of (snd (process_sensor_data respond clock user_id d s)) user_id
             = stamp)
  /\ (forall a b,
        last_activity_of (snd (record_supplement_intake respond clock user_id a b s)) user_id
        = stamp)
  /\ last_activity_of (snd (get_user_dashboard respond clock user_id s)) user_id = stamp
  /\ (forall t, last_activity_of (snd (get_health_report respond clock user_id t s)) user_id
                = stamp)
  /\ last_activity_of (snd (get_user_profile respond clock user_id s)) user_id = stamp
  /\ (forall patch,
        last_activity_of (snd (update_user_profile respond clock user_id patch s)) user_id
        = stamp).
Proof.
  intros [p Hp]. cbv zeta.
  repeat split; intros;
    unfold process_sensor_data, record_supplement_intake, get_user_dashboard,
      get_health_report, get_user_profile, update_user_profile;
    rewrite (bind_ok _ _ _ _ _ (is_registered_known user_id s p Hp)); simpl;
    rewrite (bind_ok _ _ _ _ _ (update_last_activity_known clock user_id s p Hp));
    rewrite <- (stamp_of_touched p s);
    match goal with
    | |- last_activity_of (snd (?m ?s0)) _ = _ =>
        assert (keeps_stamp user_id m) as Hk; [|by apply Hk]
    end.
  all: keeps.
  all: try (apply keeps_for_each; intros ?; keeps).
Qed.
End Frame.

(** ** The registry stays well formed *)

Create HintDb registry.

Section Invariant.
Variable respond : list event -> call -> outcome val.
Variable clock : nat -> datetime.

Lemma entry_ok_set p k v : entry_ok p -> entry_ok (dict_set p k v).
Proof.
  intros (H1 & H2 & H3).
  repeat split;
    match goal with
    | |- is_Some (dict_get _ ?key) =>
        destruct (decide (k = key)) as [->|Hne];
        [rewrite dict_get_set_eq; by eexists | by rewrite dict_get_set_ne]
    end.
Qed.

Lemma ok_ret {A} (a : A) : preserves_ok (ret a).
Proof. by intros s. Qed.

Lemma ok_raise {A} e : preserves_ok (@raise A e).
Proof. by intros s. Qed.

Lemma ok_bind {A B} (m : M A) (k : A -> M B) :
  preserves_ok m -> (forall a, preserves_ok (k a)) -> preserves_ok (bind m k).
Proof.
  intros Hm Hk s Hs. unfold bind. specialize (Hm s Hs).
  destruct (m s) as [[a|e] s1]; simpl in *; [|done].
  by apply Hk.
Qed.

Lemma ok_invoke c m a : preserves_ok (invoke respond c m a).
Proof. by intros s. Qed.

Lemma ok_now : preserves_ok (now clock).
Proof. by intros s. Qed.

Lemma ok_is_registered u : preserves_ok (is_registered u).
Proof. by intros s. Qed.

Lemma ok_get_profile u : preserves_ok (get_profile u).
Proof. intros s. unfold get_profile. by destruct (active_users s !! u). Qed.

Lemma ok_profile_field u k : preserves_ok (profile_field u k).
Proof.
  apply ok_bind; [apply ok_get_profile|]. intros p.
  destruct (dict_get p k); [apply ok_ret | apply ok_raise].
Qed.

Lemma ok_insert u p :
  entry_ok p ->
  preserves_ok (fun s => (Ok tt, with_users (<[u := p]> (active_users s)) s)).
Proof.
  intros Hp s Hs u' p'. simpl. destruct (decide (u = u')) as [->|Hne].
  - rewrite lookup_insert_eq. by intros [= <-].
  - rewrite lookup_insert_ne by done. apply Hs.
Qed.

Lemma ok_set_profile_field u k v : preserves_ok (set_profile_field u k v).
Proof.
  intros s Hs. unfold set_profile_field, bind, get_profile.
  destruct (active_users s !! u) as [p|] eqn:Hp; simpl; [|done].
  apply (ok_insert u (dict_set p k v)); [|done].
  apply entry_ok_set. by apply (Hs u).
Qed.

Lemma ok_with_running {A} (a : A) b : preserves_ok (fun s => (Ok a, with_running b s)).
Proof. by intros s. Qed.

Lemma ok_py_get v k dflt : preserves_ok (py_get v k dflt).
Proof. destruct v; first [apply ok_ret | apply ok_raise]. Qed.

Lemma ok_py_iter v : preserves_ok (py_iter v).
Proof. destruct v; first [apply ok_ret | apply ok_raise]. Qed.

Lemma ok_py_update items : forall target, preserves_ok (py_update target items).
Proof.
  induction items as [|[k v] items IH]; intros target; simpl.
  - apply ok_ret.
  - destruct target; first [apply IH | apply ok_raise].
Qed.

Lemma ok_date_minus_days d n : preserves_ok (date_minus_days d n).
Proof.
  unfold date_minus_days. destruct (d - n <? 1); [apply ok_raise | apply ok_ret].
Qed.

Lemma ok_notify u alert : preserves_ok (notify_healthcare_provider u alert).
Proof. by intros s. Qed.

Lemma ok_for_each {A} (body : A -> M unit) l :
  (forall x, preserves_ok (body x)) -> preserves_ok (for_each body l).
Proof.
  intros Hbody. induction l as [|x l IH]; simpl.
  - apply ok_ret.
  - apply ok_bind; [apply Hbody | by intros _].
Qed.

#[local] Hint Resolve ok_ret ok_raise ok_invoke ok_now ok_is_registered ok_get_profile
  ok_profile_field ok_set_profile_field ok_with_running ok_py_get ok_py_iter
  ok_py_update ok_date_minus_days ok_notify : registry.

Ltac oks :=
  repeat first
    [ progress cbv zeta
    | solve [auto with registry]
    | apply ok_bind; [|intros ?]
    | match goal with
      | |- preserves_ok (if ?b then _ else _) => destruct b
      | |- preserves_ok (match ?v with _ => _ end) => destruct v
      end ].

Lemma ok_update_recommendations u a : preserves_ok (update_recommendations respond u a).
Proof. unfold update_recommendations. oks. Qed.

Lemma ok_handle_health_alert u alert : preserves_ok (handle_health_alert respond u alert).
Proof. unfold handle_health_alert. oks. Qed.

#[local] Hint Resolve ok_update_recommendations ok_handle_health_alert : registry.

Lemma init_registry_ok : registry_ok init.
Proof. intros u p. unfold init. simpl. by rewrite lookup_empty. Qed.

(** X14. Every public operation keeps the registry well formed, whatever
    the collaborators answer: the entry of a registered user always has its
    encrypted payload, its registration time and its last activity. *)
Lemma operations_preserve_registry_ok :
  preserves_ok (start respond)
  /\ preserves_ok (stop respond)
  /\ (forall u d, preserves_ok (register_user respond clock u d))
  /\ (forall u d, preserves_ok (process_sensor_data respond clock u d))
  /\ (forall u a, preserves_ok (update_recommendations respond u a))
  /\ (forall u a b, preserves_ok (record_supplement_intake respond clock u a b))
  /\ (forall u a, preserves_ok (handle_health_alert respond u a))
  /\ (forall u, preserves_ok (get_user_dashboard respond clock u))
  /\ (forall u t, preserves_ok (get_health_report respond clock u t))
  /\ (forall u, preserves_ok (get_user_profile respond clock u))
  /\ (forall u patch, preserves_ok (update_user_profile respond clock u patch)).
Proof.
  repeat apply conj; repeat match goal with |- forall _, _ => intro end;
    unfold register_user, process_sensor_data, record_supplement_intake,
      get_user_dashboard, get_health_report, get_user_profile, update_user_profile,
      update_last_activity, compose_report, forward_settings.
  - intros s Hs. unfold start. destruct (is_running s); [done|].
    refine ((_ : preserves_ok _) s Hs). oks.
  - intros s Hs. unfold stop. destruct (is_running s); simpl; [|done].
    refine ((_ : preserves_ok _) s Hs). oks.
  - oks. apply ok_insert. repeat split; by eexists.
  - oks. apply ok_for_each. intros ?. oks.
  - oks.
  - oks.
  - oks.
  - oks.
  - oks.
  - oks.
  - oks.
Qed.
End Invariant.

(** ** Properties of the public operations *)

Section Properties.
Variable respond : list event -> call -> outcome val.
Variable clock : nat -> datetime.

(** C3. For an id that is not in the registry, each of
    [process_sensor_data], [update_recommendations],
    [record_supplement_intake], [get_user_dashboard], [get_health_report],
    [get_user_profile] and [update_user_profile] returns the
    "User not registered" error and leaves the whole state as it was: the
    registry is not mutated, the clock is not read and no collaborator is
    called. *)
Theorem unknown_user_is_rejected (s : state) (user_id : string) :
  active_users s !! user_id = None ->
  (forall sensor_data,
      process_sensor_data respond clock user_id sensor_data s = (Ok not_registered, s))
  /\ (forall analysis_result,
      update_recommendations respond user_id analysis_result s = (Ok not_registered, s))
  /\ (forall supplement_id intake_time,
      record_supplement_intake respond clock user_id supplement_id intake_time s
      = (Ok not_registered, s))
  /\ get_user_dashboard respond clock user_id s = (Ok not_registered, s)
  /\ (forall report_type,
      get_health_report respond clock user_id report_type s = (Ok not_registered, s))
  /\ get_user_profile respond clock user_id s = (Ok not_registered, s)
  /\ (forall update_data,
      update_user_profile respond clock user_id update_data s = (Ok not_registered, s)).
Proof.
  intros Hnone.
  pose proof (is_registered_unknown user_id s Hnone) as Hreg.
  repeat split; intros;
    unfold process_sensor_data, update_recommendations, record_supplement_intake,
      get_user_dashboard, get_health_report, get_user_profile, update_user_profile;
    by rewrite (bind_ok _ _ _ _ _ Hreg).
Qed.

(** C2. Registering an id that is already in the registry returns [False]
    without raising, and nothing changes: the stored profile, the running
    flag, the clock and the history of collaborator calls are those left by
    the first registration. *)
Theorem register_user_twice (s : state) (user_id : string) (user_data : val) :
  is_Some (active_users s !! user_id) ->
  register_user respond clock user_id user_data s = (Ok (VBool false), s).
Proof.
  intros [p Hp]. unfold register_user.
  by rewrite (bind_ok _ _ _ _ _ (is_registered_known user_id s p Hp)).
Qed.

(** C9. [start] on a running system and [stop] on a stopped one return
    [False] and change nothing, no component being called; otherwise, the
    components answering, [start] calls each component's [start] once, in
    order, [stop] each component's [stop] once, in reverse order, and each
    returns [True] with the running flag flipped. *)
Theorem start_stop_idempotent (s : state) :
  never_raises respond ->
  start respond s
  = (if is_running s then (Ok (VBool false), s)
     else (Ok (VBool true),
           State true (active_users s)
             (events s ++ lifecycle_calls "start" start_order) (ticks s)))
  /\ stop respond s
     = (if is_running s
        then (Ok (VBool true),
              State false (active_users s)
                (events s ++ lifecycle_calls "stop" (rev start_order)) (ticks s))
        else (Ok (VBool false), s)).
Proof.
  intros Hnr. unfold start, stop.
  destruct (is_running s) eqn:Hrun; simpl; split; try done.
  - repeat (erewrite bind_ok; [|apply invoke_returns, never_raises_answer, Hnr]).
    unfold with_running, log; simpl. by rewrite <- !app_assoc.
  - repeat (erewrite bind_ok; [|apply invoke_returns, never_raises_answer, Hnr]).
    unfold with_running, log; simpl. by rewrite <- !app_assoc.
Qed.

(** C6. For a registered id, [get_health_report] with type daily works on
    the window [today, today], weekly on [today - 7 days, today], monthly on
    [today - 30 days, today]: these are the start and end dates of the report
    it returns and of the four queries it sends; any other type makes it
    return the "Invalid report type" error without any collaborator having
    been called.  Today is the date of the clock reading taken after the one
    that stamps the last activity. *)
Theorem health_report_window (s : state) (user_id report_type : string) :
  never_raises respond ->
  is_Some (active_users s !! user_id) ->
  30 < date_of (clock (S (ticks s))) ->
  exists s',
    match spec_window report_type (date_of (clock (S (ticks s)))) with
    | Some w =>
        exists report,
          get_health_report respond clock user_id report_type s
          = (Ok (success "report" (VDict report)), s')
          /\ dict_get report "start_date" = Some (VStr (date_isoformat (fst w)))
          /\ dict_get report "end_date" = Some (VStr (date_isoformat (snd w)))
          /\ events s' = (events s ++ report_queries user_id w)%list
    | None =>
        get_health_report respond clock user_id report_type s
        = (Ok (invalid_report_type report_type), s')
        /\ events s' = events s
    end.
Proof.
  intros Hnr [p Hp] Hlate. unfold get_health_report, spec_window.
  rewrite (bind_ok _ _ _ _ _ (is_registered_known user_id s p Hp)). simpl.
  rewrite (bind_ok _ _ _ _ _ (update_last_activity_known clock user_id s p Hp)).
  unfold bind at 1, now at 1. simpl.
  set (today := date_of (clock (S (ticks s)))) in *.
  assert (Hweek : (today - 7 <? 1) = false) by (apply Z.ltb_ge; lia).
  assert (Hmonth : (today - 30 <? 1) = false) by (apply Z.ltb_ge; lia).
  destruct (String.eqb report_type "daily");
    [|destruct (String.eqb report_type "weekly");
      [|destruct (String.eqb report_type "monthly")]];
    unfold date_minus_days; rewrite ?Hweek, ?Hmonth; unfold compose_report.
  4: { eexists. split; [reflexivity|]. done. }
  all: eexists; eexists.
  all: repeat (erewrite bind_ok; [|first [apply invoke_returns, never_raises_answer, Hnr | reflexivity]]).
  all: unfold bind, now, ret, success; simpl.
  all: split; [reflexivity|]; repeat split.
  all: unfold tick, log, touched, with_users; simpl; by rewrite <- !app_assoc.
Qed.

(** The alert router as a function of the registry entry: for a registered
    user and an alert of severity high it sends exactly one urgent
    notification, followed by exactly one notice to the healthcare provider
    iff the registry entry of the user has a true
    [notify_healthcare_provider] key; for severity medium exactly one
    standard notification; for severity low only one append to the health
    report.  Nothing else is sent and the registry is not touched. *)
Theorem alert_fan_out (s : state) (user_id : string) (profile alert : pydict)
    (sv : severity) :
  never_raises respond ->
  active_users s !! user_id = Some profile ->
  dict_get alert "severity" = Some (VStr (severity_name sv)) ->
  handle_health_alert respond user_id (VDict alert) s
  = (Ok alert_handled,
     State (is_running s) (active_users s)
       (events s ++ spec_fan_out sv (notifies_provider profile) user_id (VDict alert))
       (ticks s)).
Proof.
  intros Hnr Hp Hsev. unfold handle_health_alert, py_get, dict_get_default.
  rewrite Hsev. unfold bind at 1 2, ret at 1 2. simpl.
  destruct sv; simpl; unfold bind, invoke, get_profile, notify_healthcare_provider, ret;
    simpl; rewrite (never_raises_answer respond _ _ Hnr); simpl.
  - by destruct s.
  - by destruct s.
  - rewrite Hp. change (truthy _) with (notifies_provider profile).
    destruct (notifies_provider profile), s; unfold log; simpl;
      by rewrite <- ?app_assoc.
Qed.

(** C5, as the code has it.  An alert without a severity field is handled
    exactly as severity medium: one standard notification is sent.  An alert
    whose severity is present but is neither high nor medium (low, or any
    other value) is handled as severity low: it is appended to the health
    report and no notification is sent. *)
Theorem severity_default_and_fallback (s : state) (user_id : string) (alert : pydict) :
  (dict_get alert "severity" = None ->
   handled_as Medium respond user_id (VDict alert) s)
  /\ (forall v, dict_get alert "severity" = Some v ->
        eq_str v "high" = false -> eq_str v "medium" = false ->
        handled_as Low respond user_id (VDict alert) s).
Proof.
  unfold handled_as, handle_health_alert, py_get, dict_get_default.
  split.
  - intros ->. unfold bind, ret, invoke. simpl.
    by destruct (respond _ _).
  - intros v -> Hhigh Hmedium. unfold bind, ret, invoke. simpl.
    rewrite Hhigh, Hmedium. by destruct (respond _ _).
Qed.

(** C1, as the code has it.  [register_user] for a new id has no rollback.
    It sends the encryption request and then the five registrations in the
    fixed order sensor, analyzer, recommender, intake manager, ui.  When all
    six calls are answered, it returns [True] and the registry gains the
    entry of the id, made of the answers.  When one of them fails, the calls
    before it having been answered, it stops there: the exception of that
    call reaches the caller, the calls sent are exactly those up to the
    failing one, so that no later collaborator is called and no collaborator
    is asked to deregister, and the registry and the running flag are
    exactly as before.  A profile is therefore visible only when all five
    registrations succeeded. *)
Theorem register_user_all_or_nothing (s : state) (user_id : string) (user_data : val) :
  active_users s !! user_id = None ->
  let calls := registration_calls user_id user_data in
  (all_return respond (events s) calls ->
   register_user respond clock user_id user_data s
   = (Ok (VBool true),
      State (is_running s)
        (<[user_id := entry_of user_id (clock (ticks s)) (clock (S (ticks s)))
                        (answers respond (events s) calls)]> (active_users s))
        (events s ++ map Invoked calls)
        (S (S (ticks s)))))
  /\ (forall before c after e,
        calls = (before ++ c :: after)%list ->
        all_return respond (events s) before ->
        respond (events s ++ map Invoked before) c = Raised e ->
        fst (register_user respond clock user_id user_data s) = Raised e
        /\ events (snd (register_user respond clock user_id user_data s))
           = (events s ++ map Invoked (before ++ [c]))%list
        /\ active_users (snd (register_user respond clock user_id user_data s))
           = active_users s
        /\ is_running (snd (register_user respond clock user_id user_data s))
           = is_running s).
Proof.
  intros Hnone calls. unfold register_user.
  rewrite (bind_ok _ _ _ _ _ (is_registered_unknown user_id s Hnone)). simpl.
  unfold bind, invoke, now, ret. split.
  - intros Hall. simpl in Hall.
    destruct Hall as ([v0 H0] & [v1 H1] & [v2 H2] & [v3 H3] & [v4 H4] & [v5 H5] & _).
    unfold entry_of, answer, calls. simpl.
    rewrite H0; simpl; rewrite H1; simpl; rewrite H2; simpl; rewrite H3; simpl;
      rewrite H4; simpl; rewrite H5; simpl.
    unfold with_users. simpl. by rewrite <- !app_assoc.
  - intros before c after e Hcalls Hall Hc. unfold calls, registration_calls in Hcalls.
    simpl in Hcalls.
    do 6 (destruct before as [|? before];
          [injection Hcalls as <- <-; simpl in Hall, Hc;
           repeat match type of Hall with
                  | _ /\ _ => let v := fresh "v" in
                              let H := fresh "H" in destruct Hall as [[v H] Hall]
                  end;
           rewrite ?app_nil_r in *; rewrite <- ?app_assoc in *; simpl in *;
           repeat (match goal with
                   | H : respond ?h ?k = _ |- context [respond ?h ?k] => rewrite H
                   end; simpl; rewrite <- ?app_assoc; simpl);
           done
          |injection Hcalls as <- Hcalls]).
    by destruct before.
Qed.

(** C8. With a security component that decrypts what it encrypted,
    [update_user_profile] with the empty patch returns success and leaves
    the decrypted payload of a registered user as it was: the payload stored
    afterwards decrypts to the very value the old one decrypted to.  The only
    calls made are that decryption and the encryption of the same payload;
    no settings update is forwarded to any collaborator. *)
Theorem empty_patch_keeps_payload (s : state) (user_id : string)
    (profile : pydict) (sealed payload : val) :
  security_round_trip respond ->
  active_users s !! user_id = Some profile ->
  dict_get profile "encrypted_data" = Some sealed ->
  respond (events s) (Call Security "decrypt_user_data" [sealed]) = Ok payload ->
  exists sealed' profile' s',
    update_user_profile respond clock user_id [] s = (Ok profile_updated, s')
    /\ active_users s' !! user_id = Some profile'
    /\ dict_get profile' "encrypted_data" = Some sealed'
    /\ respond (events s') (Call Security "decrypt_user_data" [sealed']) = Ok payload
    /\ events s'
       = (events s ++ [Invoked (Call Security "decrypt_user_data" [sealed]);
                       Invoked (Call Security "encrypt_user_data" [payload])])%list.
Proof.
  intros Hsec Hp Hsealed Hdec.
  destruct (Hsec (events s ++ [Invoked (Call Security "decrypt_user_data" [sealed])])%list
              payload) as (sealed' & Henc & Hback).
  exists sealed'. unfold update_user_profile.
  rewrite (bind_ok _ _ _ _ _ (is_registered_known user_id s profile Hp)). simpl.
  rewrite (bind_ok _ _ _ _ _ (update_last_activity_known clock user_id s profile Hp)).
  erewrite bind_ok.
  2: { eapply profile_field_known; [apply touched_lookup|].
       rewrite dict_get_set_ne by done. exact Hsealed. }
  erewrite bind_ok; [|by apply invoke_returns].
  unfold py_update. rewrite (bind_ok _ _ _ payload _ eq_refl).
  erewrite bind_ok; [|by apply invoke_returns].
  unfold bind at 1, set_profile_field at 1, bind at 1, get_profile at 1. simpl.
  rewrite lookup_insert_eq.
  unfold forward_settings, dict_get_default, bind, ret. simpl.
  eexists _, _. split; [reflexivity|]. simpl.
  rewrite lookup_insert_eq. split; [reflexivity|].
  split; [apply dict_get_set_eq|].
  split; [apply Hback|]. by rewrite <- app_assoc.
Qed.

(** C10. For a registered user whose stored payload decrypts to a dict,
    [get_user_profile] returns a profile without a ["password"] key, every
    other field of the payload being returned as it is next to
    [registered_at] and [last_activity], and the encrypted payload kept in
    the registry is the one that was there before the read. *)
Theorem profile_view_hides_password (s : state) (user_id : string)
    (profile payload : pydict) (sealed registered_at : val) :
  active_users s !! user_id = Some profile ->
  dict_get profile "encrypted_data" = Some sealed ->
  dict_get profile "registered_at" = Some registered_at ->
  respond (events s) (Call Security "decrypt_user_data" [sealed]) = Ok (VDict payload) ->
  exists view profile' s',
    get_user_profile respond clock user_id s = (Ok (success "profile" (VDict view)), s')
    /\ dict_mem view "password" = false
    /\ (forall k, k <> "password" -> k <> "registered_at" -> k <> "last_activity" ->
                  dict_get view k = dict_get payload k)
    /\ active_users s' !! user_id = Some profile'
    /\ dict_get profile' "encrypted_data" = Some sealed.
Proof.
  intros Hp Hsealed Hreg Hdec. unfold get_user_profile.
  rewrite (bind_ok _ _ _ _ _ (is_registered_known user_id s profile Hp)). simpl.
  rewrite (bind_ok _ _ _ _ _ (update_last_activity_known clock user_id s profile Hp)).
  erewrite bind_ok.
  2: { eapply profile_field_known; [apply touched_lookup|].
       rewrite dict_get_set_ne by done. exact Hsealed. }
  erewrite bind_ok; [|by apply invoke_returns]. cbv beta iota.
  erewrite bind_ok.
  2: { eapply profile_field_known; [apply touched_lookup|].
       rewrite dict_get_set_ne by done. exact Hreg. }
  erewrite bind_ok.
  2: { eapply profile_field_known; [apply touched_lookup|]. apply dict_get_set_eq. }
  eexists _, _, _. split; [reflexivity|].
  split; [|split; [|split]].
  - unfold dict_mem. rewrite !dict_get_set_ne by done.
    destruct (dict_get payload "password") eqn:Hpw.
    + by rewrite dict_get_del_eq.
    + by rewrite Hpw.
  - intros k Hk1 Hk2 Hk3. rewrite !dict_get_set_ne by done.
    unfold dict_mem. destruct (dict_get payload "password"); [|done].
    by rewrite dict_get_del_ne.
  - simpl. apply lookup_insert_eq.
  - by rewrite dict_get_set_ne.
Qed.

(** X15. Whatever the collaborators answer and whatever the registry
    holds, a profile that [get_user_profile] returns has no ["password"]
    key. *)
Lemma returned_profile_has_no_password (s s' : state) (user_id : string) (view : pydict) :
  get_user_profile respond clock user_id s = (Ok (success "profile" (VDict view)), s') ->
  dict_mem view "password" = false.
Proof.
  unfold get_user_profile.
  destruct (active_users s !! user_id) as [p|] eqn:Hp.
  2: { by rewrite (bind_ok _ _ _ _ _ (is_registered_unknown user_id s Hp)). }
  rewrite (bind_ok _ _ _ _ _ (is_registered_known user_id s p Hp)). simpl.
  rewrite (bind_ok _ _ _ _ _ (update_last_activity_known clock user_id s p Hp)).
  unfold profile_field, get_profile, invoke, ret, raise, bind, touched. simpl.
  rewrite lookup_insert_eq.
  destruct (dict_get _ "encrypted_data"); simpl; [|done].
  destruct (respond _ _) as [[| | | | | |payload]|]; simpl; try done.
  - destruct (match String.index 0 "password" s0 with Some _ => true | None => false end);
      [done|]. simpl. rewrite lookup_insert_eq. by destruct (dict_get _ "registered_at").
  - destruct (existsb _ _); [done|]. simpl. rewrite lookup_insert_eq.
    by destruct (dict_get _ "registered_at").
  - rewrite lookup_insert_eq.
    destruct (dict_get _ "registered_at"); simpl; [|done].
    rewrite lookup_insert_eq.
    destruct (dict_get _ "last_activity"); simpl; [|done].
    intros [= <- _]. unfold dict_mem. rewrite !dict_get_set_ne by done.
    destruct (dict_get payload "password") eqn:Hpw.
    + by rewrite dict_get_del_eq.
    + by rewrite Hpw.
Qed.

End Properties.

(** ** The properties at work in the demo world *)

Lemma demo_never_raises : never_raises demo_respond.
Proof.
  intros h [t m a]. unfold demo_respond. simpl.
  destruct t; repeat case_match; eauto.
Qed.

Lemma recommender_down_fails h user_id user_data :
  recommender_down h (Call Recommender "register_user" [VStr user_id; user_data])
  = Raised (Failure "recommender unavailable").
Proof. reflexivity. Qed.

Lemma demo_round_trip : security_round_trip demo_respond.
Proof.
  intros h payload. eexists. split; [reflexivity|]. intros h'. reflexivity.
Qed.

Lemma demo_profile_lookup : active_users demo_registered !! "user123" = Some demo_profile.
Proof. by vm_compute. Qed.

(** [register_user] seals the user's data as a whole: the provider setting
    the user registered with is not a key of the registry entry, where the
    alert router looks for it. *)
Example demo_entry_has_no_provider_setting :
  dict_get demo_payload "notify_healthcare_provider" = Some (VBool true)
  /\ notifies_provider demo_profile = false.
Proof. by vm_compute. Qed.

(** C1 on a registration whose third collaborator fails: the exception of
    the recommender reaches the caller, four calls have been sent and the
    registry stays empty. *)
Lemma register_user_all_or_nothing_witness :
  fst (register_user recommender_down demo_clock "user123" demo_user_data init)
  = Raised (Failure "recommender unavailable")
  /\ events (snd (register_user recommender_down demo_clock "user123" demo_user_data init))
     = (events init
        ++ map Invoked
             ([Call Security "encrypt_user_data" [demo_user_data];
               Call Sensor "register_user" [VStr "user123"; demo_user_data];
               Call Analyzer "register_user" [VStr "user123"; demo_user_data]]
              ++ [Call Recommender "register_user" [VStr "user123"; demo_user_data]]))%list
  /\ active_users
       (snd (register_user recommender_down demo_clock "user123" demo_user_data init))
     = active_users init
  /\ is_running
       (snd (register_user recommender_down demo_clock "user123" demo_user_data init))
     = is_running init.
Proof.
  apply (proj2 (register_user_all_or_nothing recommender_down demo_clock init "user123"
                  demo_user_data eq_refl)
           [Call Security "encrypt_user_data" [demo_user_data];
            Call Sensor "register_user" [VStr "user123"; demo_user_data];
            Call Analyzer "register_user" [VStr "user123"; demo_user_data]]
           (Call Recommender "register_user" [VStr "user123"; demo_user_data])
           [Call Intake "register_user" [VStr "user123"; demo_user_data];
            Call UI "register_user" [VStr "user123"; demo_user_data]]
           (Failure "recommender unavailable")).
  - reflexivity.
  - simpl. repeat split; by eexists.
  - reflexivity.
Defined.

(** C1 as stated fails: when the recommender refuses the registration, the
    sensor manager and the analyzer have registered the user, yet the four
    calls made so far are all that is ever sent; neither component is called
    again, so neither is asked to deregister. *)
Lemma failed_registration_is_not_rolled_back :
  fst (register_user recommender_down demo_clock "user123" demo_user_data init)
  = Raised (Failure "recommender unavailable")
  /\ events (snd (register_user recommender_down demo_clock "user123" demo_user_data init))
     = map Invoked (take 4 (registration_calls "user123" demo_user_data))
  /\ ~ called_after 2 Sensor
         (events (snd (register_user recommender_down demo_clock "user123"
                         demo_user_data init)))
  /\ ~ called_after 3 Analyzer
         (events (snd (register_user recommender_down demo_clock "user123"
                         demo_user_data init))).
Proof.
  split; [by vm_compute|]. split; [by vm_compute|].
  split; intros (k & Hin & Hk); vm_compute in Hin;
    repeat destruct Hin as [Hin|Hin]; try done;
    injection Hin as <-; discriminate Hk.
Qed.

(** C2 on the registration of [main] done twice. *)
Lemma register_user_twice_witness :
  register_user demo_respond demo_clock "user123" demo_user_data demo_registered
  = (Ok (VBool false), demo_registered).
Proof.
  apply register_user_twice. rewrite demo_profile_lookup. by eexists.
Defined.

(** C3 on an id that was never registered. *)
Lemma unknown_user_is_rejected_witness :
  process_sensor_data demo_respond demo_clock "ghost" VNone demo_registered
  = (Ok not_registered, demo_registered)
  /\ update_user_profile demo_respond demo_clock "ghost" [("age", VInt 36)] demo_registered
     = (Ok not_registered, demo_registered).
Proof.
  destruct (unknown_user_is_rejected demo_respond demo_clock demo_registered "ghost")
    as (Hsensor & _ & _ & _ & _ & _ & Hupdate); [by vm_compute|].
  split; [apply Hsensor | apply Hupdate].
Defined.

(** A high alert for a user whose registry entry was given the provider
    setting by hand: one urgent notification, then one notice to the
    provider. *)
Lemma alert_fan_out_witness :
  handle_health_alert demo_respond "user123" (VDict high_alert) demo_flagged
  = (Ok alert_handled,
     State false (active_users demo_flagged)
       (events demo_flagged
        ++ [Invoked (Call UI "send_urgent_notification" [VStr "user123"; VDict high_alert]);
            ProviderNotified "user123" (VDict high_alert)])
       2).
Proof.
  apply (alert_fan_out demo_respond demo_flagged "user123"
           (dict_set demo_profile "notify_healthcare_provider" (VBool true))
           high_alert High demo_never_raises); by vm_compute.
Defined.

(** C5 as stated fails: an alert of severity "critical", a value outside
    low, medium and high, is appended to the health report as a low alert
    is, and no standard notification is sent. *)
Lemma unknown_severity_is_not_medium :
  dict_get critical_alert "severity" = Some (VStr "critical")
  /\ handled_as Low demo_respond "user123" (VDict critical_alert) demo_registered
  /\ ~ handled_as Medium demo_respond "user123" (VDict critical_alert) demo_registered.
Proof.
  split; [done|]. split; [by vm_compute|].
  unfold handled_as. intros H. vm_compute in H. discriminate H.
Qed.

(** C5, amended, on an alert without severity and on the critical one. *)
Lemma severity_default_and_fallback_witness :
  handled_as Medium demo_respond "user123" (VDict [("message", VStr "Drink water")])
    demo_registered
  /\ handled_as Low demo_respond "user123" (VDict critical_alert) demo_registered.
Proof.
  split.
  - by apply (severity_default_and_fallback demo_respond demo_registered "user123"
                [("message", VStr "Drink water")]).
  - by apply (proj2 (severity_default_and_fallback demo_respond demo_registered "user123"
                       critical_alert) (VStr "critical")).
Defined.

(** C6 on the weekly report of 2024-06-10. *)
Lemma health_report_window_witness :
  exists s' report,
    get_health_report demo_respond demo_clock "user123" "weekly" demo_registered
    = (Ok (success "report" (VDict report)), s')
    /\ dict_get report "start_date" = Some (VStr "2024-06-03")
    /\ dict_get report "end_date" = Some (VStr "2024-06-10").
Proof.
  destruct (health_report_window demo_respond demo_clock demo_registered "user123" "weekly"
              demo_never_raises) as [s' H].
  - rewrite demo_profile_lookup. by eexists.
  - by vm_compute.
  - change (spec_window "weekly" (date_of (demo_clock (S (ticks demo_registered)))))
      with (Some (739040, 739047)) in H.
    destruct H as (report & Hrun & Hstart & Hend & _).
    exists s', report. split; [exact Hrun|]. split; [exact Hstart | exact Hend].
Defined.

(** C7 fails on the code: after a successful [update_recommendations] the
    last activity of the user is still the stamp of the registration, while
    the clock has a later reading to give; the same call to
    [record_supplement_intake] stamps that reading. *)
Theorem update_recommendations_skips_last_activity :
  fst (update_recommendations demo_respond "user123" demo_analysis demo_registered)
  = Ok (success "recommendations" VNone)
  /\ last_activity_of demo_registered "user123"
     = Some (VStr "2024-06-10T12:34:56.000001")
  /\ last_activity_of
       (snd (update_recommendations demo_respond "user123" demo_analysis demo_registered))
       "user123"
     = Some (VStr "2024-06-10T12:34:56.000001")
  /\ last_activity_of
       (snd (record_supplement_intake demo_respond demo_clock "user123" (VStr "vd001")
               VNone demo_registered))
       "user123"
     = Some (VStr "2024-06-10T12:34:56.000002").
Proof. repeat split; by vm_compute. Qed.

(** C8 on the profile of [main]. *)
Lemma empty_patch_keeps_payload_witness :
  exists sealed' profile' s',
    update_user_profile demo_respond demo_clock "user123" [] demo_registered
    = (Ok profile_updated, s')
    /\ active_users s' !! "user123" = Some profile'
    /\ dict_get profile' "encrypted_data" = Some sealed'
    /\ demo_respond (events s') (Call Security "decrypt_user_data" [sealed'])
       = Ok demo_user_data
    /\ events s'
       = (events demo_registered
          ++ [Invoked (Call Security "decrypt_user_data"
                         [VList [VStr "sealed"; demo_user_data]]);
              Invoked (Call Security "encrypt_user_data" [demo_user_data])])%list.
Proof.
  apply (empty_patch_keeps_payload demo_respond demo_clock demo_registered "user123"
           demo_profile (VList [VStr "sealed"; demo_user_data]) demo_user_data
           demo_round_trip); by vm_compute.
Defined.

(** C10 on the profile of [main], whose payload has a password. *)
Lemma profile_view_hides_password_witness :
  dict_mem demo_payload "password" = true
  /\ exists view profile' s',
      get_user_profile demo_respond demo_clock "user123" demo_registered
      = (Ok (success "profile" (VDict view)), s')
      /\ dict_mem view "password" = false
      /\ (forall k, k <> "password" -> k <> "registered_at" -> k <> "last_activity" ->
                    dict_get view k = dict_get demo_payload k)
      /\ active_users s' !! "user123" = Some profile'
      /\ dict_get profile' "encrypted_data" = Some (VList [VStr "sealed"; demo_user_data]).
Proof.
  split; [done|].
  apply (profile_view_hides_password demo_respond demo_clock demo_registered "user123"
           demo_profile demo_payload (VList [VStr "sealed"; demo_user_data])
           (VStr "2024-06-10T12:34:56")); by vm_compute.
Defined.

(** C9 on a fresh system: started, started again, stopped, stopped again. *)
Lemma start_stop_idempotent_witness :
  start demo_respond init
  = (Ok (VBool true), State true ∅ (lifecycle_calls "start" start_order) 0)
  /\ start demo_respond (State true ∅ (lifecycle_calls "start" start_order) 0)
     = (Ok (VBool false), State true ∅ (lifecycle_calls "start" start_order) 0)
  /\ stop demo_respond init = (Ok (VBool false), init).
Proof.
  split; [|split].
  - apply (start_stop_idempotent demo_respond init demo_never_raises).
  - apply (start_stop_idempotent demo_respond
             (State true ∅ (lifecycle_calls "start" start_order) 0) demo_never_raises).
  - apply (start_stop_idempotent demo_respond init demo_never_raises).
Defined.

(** ** Running the methods with collaborators that answer *)

Lemma log_all_nil s : log_all [] s = s.
Proof. destruct s. unfold log_all. simpl. by rewrite app_nil_r. Qed.

Lemma log_all_app es1 es2 s : log_all es2 (log_all es1 s) = log_all (es1 ++ es2) s.
Proof. unfold log_all. simpl. by rewrite app_assoc. Qed.

Lemma log_log_all e es s : log e (log_all es s) = log_all (es ++ [e]) s.
Proof. unfold log, log_all. simpl. by rewrite app_assoc. Qed.

Lemma log_as_log_all e s : log e s = log_all [e] s.
Proof. done. Qed.

Section Runs.
Variable respond : list event -> call -> outcome val.
Variable clock : nat -> datetime.
Hypothesis Hnr : never_raises respond.

Lemma invoke_run c m a s :
  invoke respond c m a s
  = (Ok (answer respond (events s) (Call c m a)), log_all [Invoked (Call c m a)] s).
Proof. apply invoke_returns, never_raises_answer, Hnr. Qed.

Lemma update_recommendations_run user_id p analysis_result s :
  active_users s !! user_id = Some p ->
  exists recommendations,
    update_recommendations respond user_id analysis_result s
    = (Ok (success "recommendations" recommendations),
       log_all (recommendation_events user_id analysis_result recommendations) s).
Proof.
  intros Hp. eexists. unfold update_recommendations.
  rewrite (bind_ok _ _ _ _ _ (is_registered_known user_id s p Hp)). simpl.
  repeat (erewrite bind_ok; [|apply invoke_run]).
  unfold ret, success. by rewrite !log_all_app.
Qed.

Lemma handle_health_alert_run user_id p alert s :
  active_users s !! user_id = Some p ->
  handle_health_alert respond user_id (VDict alert) s
  = (Ok alert_handled, log_all (dispatch (notifies_provider p) user_id alert) s).
Proof.
  intros Hp. unfold handle_health_alert, py_get, dispatch.
  unfold bind at 1 2, ret at 1 2.
  destruct (eq_str _ "high"); [|destruct (eq_str _ "medium")].
  - destruct (notifies_provider p) eqn:Hn.
    all: erewrite bind_ok;
      [|erewrite bind_ok; [|apply invoke_run];
        unfold bind, get_profile; simpl; rewrite Hp;
        change (truthy _) with (notifies_provider p); rewrite Hn; reflexivity].
    all: unfold ret, alert_handled; try done.
    by rewrite log_log_all.
  - erewrite bind_ok; [done|]. erewrite bind_ok; [|apply invoke_run]. done.
  - erewrite bind_ok; [done|]. erewrite bind_ok; [|apply invoke_run]. done.
Qed.

Lemma alerts_run user_id p alerts : forall s,
  active_users s !! user_id = Some p ->
  for_each (fun alert => handle_health_alert respond user_id alert ;; ret tt)%py
    (map VDict alerts) s
  = (Ok tt, log_all (concat (map (dispatch (notifies_provider p) user_id) alerts)) s).
Proof.
  induction alerts as [|alert alerts IH]; intros s Hp; simpl.
  - unfold ret. by rewrite log_all_nil.
  - erewrite bind_ok.
    2: { erewrite bind_ok; [|by apply handle_health_alert_run]. reflexivity. }
    rewrite IH by done. by rewrite log_all_app.
Qed.

End Runs.

(** ** The sensor pipeline and the alert router *)

Lemma notifies_provider_touched p v :
  notifies_provider (dict_set p "last_activity" v) = notifies_provider p.
Proof. unfold notifies_provider, dict_get_default. by rewrite dict_get_set_ne. Qed.

Lemma touched_logged_lookup clock user_id p es s :
  active_users (log_all es (touched clock user_id p s)) !! user_id
  = Some (dict_set p "last_activity" (VStr (datetime_isoformat (clock (ticks s))))).
Proof. simpl. apply lookup_insert_eq. Qed.

Section Pipeline.
Variable respond : list event -> call -> outcome val.
Variable clock : nat -> datetime.

Lemma handle_health_alert_raises user_id alert c e s :
  head (dispatch false user_id alert) = Some (Invoked c) ->
  respond (events s) c = Raised e ->
  handle_health_alert respond user_id (VDict alert) s = (Raised e, log_all [Invoked c] s).
Proof.
  unfold handle_health_alert, py_get, dispatch.
  unfold bind at 1 2, ret at 1 2.
  destruct (eq_str _ "high"); [|destruct (eq_str _ "medium")];
    simpl; intros [= <-] Hc; unfold bind, invoke; by rewrite Hc.
Qed.

(** X1. With collaborators that answer, [process_sensor_data] for a
    registered user runs its stages in a fixed order: the sensor manager
    validates the raw data, the analyzer analyzes the validated data, the
    recommendations are updated iff the analysis sets
    [update_recommendation], each alert of the analysis is dispatched in the
    order of the list, and the user interface receives the analysis last;
    the analysis is returned as the result and only the last activity of the
    user changes in the registry. *)
Theorem sensor_pipeline_order (s : state) (user_id : string) (p : pydict)
    (sensor_data validated : val) (analysis : pydict) (alerts : list pydict) :
  never_raises respond ->
  active_users s !! user_id = Some p ->
  respond (events s) (Call Sensor "process_data" [VStr user_id; sensor_data])
  = Ok validated ->
  respond (events s ++ [Invoked (Call Sensor "process_data" [VStr user_id; sensor_data])])
    (Call Analyzer "analyze" [VStr user_id; validated])
  = Ok (VDict analysis) ->
  dict_get_default analysis "alerts" (VList []) = VList (map VDict alerts) ->
  exists recommendations,
    process_sensor_data respond clock user_id sensor_data s
    = (Ok (success "result" (VDict analysis)),
       log_all
         (pipeline_events (notifies_provider p) user_id sensor_data validated analysis
            recommendations alerts)
         (touched clock user_id p s)).
Proof.
  intros Hnr Hp Hpd Han Halerts. unfold process_sensor_data, pipeline_events.
  rewrite (bind_ok _ _ _ _ _ (is_registered_known user_id s p Hp)). simpl.
  rewrite (bind_ok _ _ _ _ _ (update_last_activity_known clock user_id s p Hp)).
  erewrite bind_ok; [|by apply invoke_returns].
  erewrite bind_ok; [|by apply invoke_returns].
  erewrite bind_ok; [|reflexivity].
  rewrite !log_as_log_all, !log_all_app.
  destruct (truthy (dict_get_default analysis "update_recommendation" (VBool false))).
  - match goal with
    | |- context [log_all ?es (touched clock user_id p s)] =>
        destruct (update_recommendations_run respond Hnr user_id _ (VDict analysis) _
                    (touched_logged_lookup clock user_id p es s)) as [recs Hrecs]
    end.
    exists recs.
    erewrite bind_ok; [|erewrite bind_ok; [|exact Hrecs]; reflexivity].
    erewrite bind_ok; [|reflexivity]. rewrite Halerts.
    erewrite bind_ok; [|reflexivity].
    erewrite bind_ok; [|apply (alerts_run respond Hnr), touched_logged_lookup].
    erewrite bind_ok; [|apply (invoke_run respond Hnr)].
    unfold ret, success. rewrite !log_all_app, notifies_provider_touched.
    by rewrite <- !app_assoc.
  - exists VNone.
    erewrite bind_ok; [|reflexivity].
    erewrite bind_ok; [|reflexivity]. rewrite Halerts.
    erewrite bind_ok; [|reflexivity].
    erewrite bind_ok; [|apply (alerts_run respond Hnr), touched_logged_lookup].
    erewrite bind_ok; [|apply (invoke_run respond Hnr)].
    unfold ret, success. rewrite !log_all_app, notifies_provider_touched.
    by rewrite <- !app_assoc.
Qed.

(** X2. When the analyzer answers with something that is not a dict,
    [process_sensor_data] raises [AttributeError] right after the analysis:
    the last activity is already stamped, the sensor manager and the
    analyzer have been called, and nothing is sent to the recommender, the
    intake manager or the user interface. *)
Theorem malformed_analysis_aborts (s : state) (user_id : string) (p : pydict)
    (sensor_data validated analysis : val) :
  active_users s !! user_id = Some p ->
  respond (events s) (Call Sensor "process_data" [VStr user_id; sensor_data])
  = Ok validated ->
  respond (events s ++ [Invoked (Call Sensor "process_data" [VStr user_id; sensor_data])])
    (Call Analyzer "analyze" [VStr user_id; validated])
  = Ok analysis ->
  not_a_dict analysis ->
  process_sensor_data respond clock user_id sensor_data s
  = (Raised AttributeError,
     log_all [Invoked (Call Sensor "process_data" [VStr user_id; sensor_data]);
              Invoked (Call Analyzer "analyze" [VStr user_id; validated])]
       (touched clock user_id p s)).
Proof.
  intros Hp Hpd Han Hbad. unfold process_sensor_data.
  rewrite (bind_ok _ _ _ _ _ (is_registered_known user_id s p Hp)). simpl.
  rewrite (bind_ok _ _ _ _ _ (update_last_activity_known clock user_id s p Hp)).
  erewrite bind_ok; [|by apply invoke_returns].
  erewrite bind_ok; [|by apply invoke_returns].
  rewrite !log_as_log_all, !log_all_app.
  destruct analysis; try done; by erewrite bind_raised.
Qed.

(** X3. Alerts are not isolated from each other: when the collaborator
    call of one alert raises, [process_sensor_data] stops there.  The
    exception reaches the caller, the alerts after it are not dispatched and
    the user interface never receives the analysis, while the last activity
    stays stamped. *)
Theorem failing_alert_aborts_pipeline (s : state) (user_id : string) (p : pydict)
    (sensor_data validated : val) (analysis alert : pydict) (rest : list val)
    (c : call) (e : exn) :
  active_users s !! user_id = Some p ->
  respond (events s) (Call Sensor "process_data" [VStr user_id; sensor_data])
  = Ok validated ->
  respond (events s ++ [Invoked (Call Sensor "process_data" [VStr user_id; sensor_data])])
    (Call Analyzer "analyze" [VStr user_id; validated])
  = Ok (VDict analysis) ->
  truthy (dict_get_default analysis "update_recommendation" (VBool false)) = false ->
  dict_get_default analysis "alerts" (VList []) = VList (VDict alert :: rest) ->
  head (dispatch false user_id alert) = Some (Invoked c) ->
  respond
    (events s ++ [Invoked (Call Sensor "process_data" [VStr user_id; sensor_data]);
                  Invoked (Call Analyzer "analyze" [VStr user_id; validated])])
    c
  = Raised e ->
  process_sensor_data respond clock user_id sensor_data s
  = (Raised e,
     log_all [Invoked (Call Sensor "process_data" [VStr user_id; sensor_data]);
              Invoked (Call Analyzer "analyze" [VStr user_id; validated]);
              Invoked c]
       (touched clock user_id p s)).
Proof.
  intros Hp Hpd Han Hflag Halerts Hc He. unfold process_sensor_data.
  rewrite (bind_ok _ _ _ _ _ (is_registered_known user_id s p Hp)). simpl.
  rewrite (bind_ok _ _ _ _ _ (update_last_activity_known clock user_id s p Hp)).
  erewrite bind_ok; [|by apply invoke_returns].
  erewrite bind_ok; [|by apply invoke_returns].
  erewrite bind_ok; [|reflexivity]. rewrite Hflag.
  erewrite bind_ok; [|reflexivity].
  erewrite bind_ok; [|reflexivity]. rewrite Halerts.
  erewrite bind_ok; [|reflexivity].
  rewrite !log_as_log_all, !log_all_app.
  erewrite bind_raised.
  2: { simpl. erewrite bind_raised; [reflexivity|].
       erewrite bind_raised; [reflexivity|].
       apply handle_health_alert_raises; [done | exact He]. }
  by rewrite log_all_app.
Qed.

(** X4. [handle_health_alert] does not check that the user is registered.
    For an unknown id and answering collaborators, an alert of severity high
    is sent as an urgent notification and then the lookup of the user raises
    [KeyError]; any other alert is dispatched as for a registered user. *)
Theorem alert_for_unknown_user (s : state) (user_id : string) (alert : pydict) :
  never_raises respond ->
  active_users s !! user_id = None ->
  handle_health_alert respond user_id (VDict alert) s
  = (if eq_str (dict_get_default alert "severity" (VStr "medium")) "high"
     then (Raised (KeyError user_id),
           log_all [Invoked (Call UI "send_urgent_notification"
                               [VStr user_id; VDict alert])] s)
     else (Ok alert_handled, log_all (dispatch false user_id alert) s)).
Proof.
  intros Hnr Hnone. unfold handle_health_alert, py_get, dispatch.
  unfold bind at 1 2, ret at 1 2.
  destruct (eq_str _ "high"); [|destruct (eq_str _ "medium")].
  - erewrite bind_raised; [done|].
    erewrite bind_ok; [|apply (invoke_run respond Hnr)].
    unfold bind, get_profile. simpl. by rewrite Hnone.
  - erewrite bind_ok; [done|]. erewrite bind_ok; [|apply (invoke_run respond Hnr)]. done.
  - erewrite bind_ok; [done|]. erewrite bind_ok; [|apply (invoke_run respond Hnr)]. done.
Qed.

End Pipeline.


(** ** Profiles: registration, patches and views *)

Lemma dict_get_app {V} (d1 d2 : list (string * V)) k :
  dict_get (d1 ++ d2) k
  = match dict_get d1 k with
    | Some v => Some v
    | None => dict_get d2 k
    end.
Proof.
  induction d1 as [|[k' v'] d1 IH]; simpl; [done|].
  by destruct (String.eqb k' k).
Qed.

Lemma dict_get_set {V} (d : list (string * V)) k k' v :
  dict_get (dict_set d k v) k' = if String.eqb k k' then Some v else dict_get d k'.
Proof.
  destruct (String.eqb k k') eqn:E.
  - apply String.eqb_eq in E. subst k'. apply dict_get_set_eq.
  - apply dict_get_set_ne. intros ->. by rewrite String.eqb_refl in E.
Qed.

Lemma merge_lookup (patch : pydict) : forall (d : pydict) k,
  dict_get (merge d patch) k
  = match dict_get (rev patch) k with
    | Some v => Some v
    | None => dict_get d k
    end.
Proof.
  induction patch as [|[k0 v0] patch IH]; intros d k; [done|].
  unfold merge in *. simpl. rewrite IH, dict_get_app, dict_get_set. simpl.
  destruct (dict_get (rev patch) k); [done|].
  by destruct (String.eqb k0 k).
Qed.

Lemma py_update_dict (patch : pydict) : forall (d : pydict) s,
  py_update (VDict d) patch s = (Ok (VDict (merge d patch)), s).
Proof.
  induction patch as [|[k v] patch IH]; intros d s; simpl; [done|]. apply IH.
Qed.

Lemma view_of_lookup payload ra la k :
  ~ reserved_key k -> dict_get (view_of payload ra la) k = dict_get payload k.
Proof.
  intros Hk. unfold view_of, reserved_key in *.
  rewrite !dict_get_set_ne by (intros <-; tauto).
  unfold dict_mem. destruct (dict_get payload "password"); [|done].
  apply dict_get_del_ne. intros <-. tauto.
Qed.

Lemma view_of_password payload ra la : dict_mem (view_of payload ra la) "password" = false.
Proof.
  unfold view_of, dict_mem at 1. rewrite !dict_get_set_ne by done.
  unfold dict_mem. destruct (dict_get payload "password") eqn:Hpw.
  - by rewrite dict_get_del_eq.
  - by rewrite Hpw.
Qed.

Section Profiles.
Variable respond : list event -> call -> outcome val.
Variable clock : nat -> datetime.

Lemma get_user_profile_run s user_id p payload sealed ra :
  active_users s !! user_id = Some p ->
  dict_get p "encrypted_data" = Some sealed ->
  dict_get p "registered_at" = Some ra ->
  respond (events s) (Call Security "decrypt_user_data" [sealed]) = Ok (VDict payload) ->
  get_user_profile respond clock user_id s
  = (Ok (success "profile"
           (VDict (view_of payload ra (VStr (datetime_isoformat (clock (ticks s))))))),
     log_all [Invoked (Call Security "decrypt_user_data" [sealed])]
       (touched clock user_id p s)).
Proof.
  intros Hp Hsealed Hreg Hdec. unfold get_user_profile.
  rewrite (bind_ok _ _ _ _ _ (is_registered_known user_id s p Hp)). simpl.
  rewrite (bind_ok _ _ _ _ _ (update_last_activity_known clock user_id s p Hp)).
  erewrite bind_ok.
  2: { eapply profile_field_known; [apply touched_lookup|].
       rewrite dict_get_set_ne by done. exact Hsealed. }
  erewrite bind_ok; [|by apply invoke_returns]. cbv beta iota.
  erewrite bind_ok.
  2: { eapply profile_field_known; [apply touched_lookup|].
       rewrite dict_get_set_ne by done. exact Hreg. }
  erewrite bind_ok.
  2: { eapply profile_field_known; [apply touched_lookup|]. apply dict_get_set_eq. }
  reflexivity.
Qed.

Lemma forward_settings_run c toggle user_id patch s :
  never_raises respond ->
  forward_settings respond c toggle user_id patch s
  = (Ok tt,
     log_all (if truthy (dict_get_default patch toggle (VBool false))
              then [Invoked (Call c "update_user_settings" [VStr user_id; VDict patch])]
              else []) s).
Proof.
  intros Hnr. unfold forward_settings. destruct (truthy _).
  - erewrite bind_ok; [|apply (invoke_run respond Hnr)]. done.
  - unfold ret. by rewrite log_all_nil.
Qed.

Lemma update_user_profile_run s user_id p payload sealed patch :
  never_raises respond ->
  active_users s !! user_id = Some p ->
  dict_get p "encrypted_data" = Some sealed ->
  respond (events s) (Call Security "decrypt_user_data" [sealed]) = Ok (VDict payload) ->
  let merged := VDict (merge payload patch) in
  let sealed' :=
    answer respond (events s ++ [Invoked (Call Security "decrypt_user_data" [sealed])])
      (Call Security "encrypt_user_data" [merged]) in
  update_user_profile respond clock user_id patch s
  = (Ok profile_updated,
     log_all ([Invoked (Call Security "decrypt_user_data" [sealed]);
               Invoked (Call Security "encrypt_user_data" [merged])]
              ++ settings_forwards user_id patch)
       (with_users
          (<[user_id := dict_set
                          (dict_set p "last_activity"
                             (VStr (datetime_isoformat (clock (ticks s)))))
                          "encrypted_data" sealed']> (active_users s))
          (tick s))).
Proof.
  intros Hnr Hp Hsealed Hdec merged sealed'. unfold update_user_profile.
  rewrite (bind_ok _ _ _ _ _ (is_registered_known user_id s p Hp)). simpl.
  rewrite (bind_ok _ _ _ _ _ (update_last_activity_known clock user_id s p Hp)).
  erewrite bind_ok.
  2: { eapply profile_field_known; [apply touched_lookup|].
       rewrite dict_get_set_ne by done. exact Hsealed. }
  erewrite bind_ok; [|by apply invoke_returns].
  erewrite bind_ok; [|apply py_update_dict].
  erewrite bind_ok; [|apply (invoke_run respond Hnr)].
  erewrite bind_ok.
  2: { unfold set_profile_field. erewrite bind_ok; [reflexivity|].
       unfold get_profile. simpl. by rewrite lookup_insert_eq. }
  repeat (erewrite bind_ok; [|by apply forward_settings_run]).
  unfold ret, profile_updated. f_equal.
  unfold settings_forwards, settings_toggles, log_all, log, touched, with_users, tick.
  simpl. rewrite insert_insert_eq. f_equal.
  rewrite <- !app_assoc. simpl. do 2 f_equal.
  repeat match goal with |- context [truthy ?v] => destruct (truthy v) end; done.
Qed.

End Profiles.

Section ProfileProperties.
Variable respond : list event -> call -> outcome val.
Variable clock : nat -> datetime.

Lemma register_user_run s user_id user_data :
  never_raises respond ->
  active_users s !! user_id = None ->
  register_user respond clock user_id user_data s
  = (Ok (VBool true),
     State (is_running s)
       (<[user_id := entry_of user_id (clock (ticks s)) (clock (S (ticks s)))
                       (answers respond (events s)
                          (registration_calls user_id user_data))]>
          (active_users s))
       (events s ++ map Invoked (registration_calls user_id user_data))
       (S (S (ticks s)))).
Proof.
  intros Hnr Hnone. unfold register_user.
  rewrite (bind_ok _ _ _ _ _ (is_registered_unknown user_id s Hnone)). simpl.
  erewrite bind_ok; [|apply invoke_returns, never_raises_answer, Hnr].
  unfold bind at 1 2, now at 1 2. simpl.
  repeat (erewrite bind_ok; [|apply invoke_returns, never_raises_answer, Hnr]).
  unfold bind, ret, log, tick, with_users, entry_of. simpl.
  by rewrite <- !app_assoc.
Qed.

(** X5. A patch is merged key by key over the decrypted payload: with
    collaborators that answer and a payload that decrypts to a dict,
    [update_user_profile] encrypts and stores a payload in which every key
    of the patch has the value of the patch and every other key keeps its
    value.  After the encryption it forwards the whole patch to exactly the
    components whose toggle is on in the patch, in the order sensor,
    analyzer, recommender, intake manager, user interface. *)
Theorem update_user_profile_merges (s : state) (user_id : string)
    (p payload patch : pydict) (sealed : val) :
  never_raises respond ->
  active_users s !! user_id = Some p ->
  dict_get p "encrypted_data" = Some sealed ->
  respond (events s) (Call Security "decrypt_user_data" [sealed]) = Ok (VDict payload) ->
  exists merged sealed' s',
    update_user_profile respond clock user_id patch s = (Ok profile_updated, s')
    /\ (forall k,
          dict_get merged k
          = match dict_get (rev patch) k with
            | Some v => Some v
            | None => dict_get payload k
            end)
    /\ events s'
       = (events s
          ++ [Invoked (Call Security "decrypt_user_data" [sealed]);
              Invoked (Call Security "encrypt_user_data" [VDict merged])]
          ++ settings_forwards user_id patch)%list
    /\ respond (events s ++ [Invoked (Call Security "decrypt_user_data" [sealed])])
         (Call Security "encrypt_user_data" [VDict merged])
       = Ok sealed'
    /\ active_users s' !! user_id
       = Some (dict_set
                 (dict_set p "last_activity" (VStr (datetime_isoformat (clock (ticks s)))))
                 "encrypted_data" sealed').
Proof.
  intros Hnr Hp Hsealed Hdec.
  eexists (merge payload patch), _, _.
  split; [by apply update_user_profile_run|].
  split; [intros k; apply merge_lookup|].
  split; [done|].
  split; [apply never_raises_answer, Hnr|].
  simpl. apply lookup_insert_eq.
Qed.

(** X6. A patch shows in the next read: with collaborators that answer and
    a security component that decrypts what it encrypted,
    [update_user_profile] followed by [get_user_profile] returns a profile
    in which every patched key other than [password], [registered_at] and
    [last_activity] has the value of the patch and every other such key has
    the value it had in the payload before. *)
Theorem patch_then_read (s : state) (user_id : string)
    (p payload patch : pydict) (sealed registered_at : val) :
  never_raises respond ->
  security_round_trip respond ->
  active_users s !! user_id = Some p ->
  dict_get p "encrypted_data" = Some sealed ->
  dict_get p "registered_at" = Some registered_at ->
  respond (events s) (Call Security "decrypt_user_data" [sealed]) = Ok (VDict payload) ->
  exists view s1 s2,
    update_user_profile respond clock user_id patch s = (Ok profile_updated, s1)
    /\ get_user_profile respond clock user_id s1
       = (Ok (success "profile" (VDict view)), s2)
    /\ forall k, ~ reserved_key k ->
         dict_get view k
         = match dict_get (rev patch) k with
           | Some v => Some v
           | None => dict_get payload k
           end.
Proof.
  intros Hnr Hsec Hp Hsealed Hreg Hdec.
  eexists _, _, _.
  split; [by apply update_user_profile_run|].
  split.
  - eapply get_user_profile_run.
    + simpl. apply lookup_insert_eq.
    + apply dict_get_set_eq.
    + rewrite !dict_get_set_ne by done. exact Hreg.
    + destruct (Hsec (events s ++ [Invoked (Call Security "decrypt_user_data" [sealed])])%list
                  (VDict (merge payload patch))) as (sealed' & Henc & Hback).
      unfold answer. rewrite Henc. apply Hback.
  - intros k Hk. rewrite view_of_lookup by done. apply merge_lookup.
Qed.

(** X7. When the stored payload decrypts to something that is not a dict,
    a non-empty patch cannot be merged: [update_user_profile] raises
    [TypeError] after the decryption, nothing is encrypted or forwarded and
    the stored payload is untouched; only the last activity has been
    stamped. *)
Theorem patch_on_malformed_payload_raises (s : state) (user_id : string)
    (p patch : pydict) (sealed payload : val) (k : string) (v : val) :
  active_users s !! user_id = Some p ->
  dict_get p "encrypted_data" = Some sealed ->
  respond (events s) (Call Security "decrypt_user_data" [sealed]) = Ok payload ->
  not_a_dict payload ->
  update_user_profile respond clock user_id ((k, v) :: patch) s
  = (Raised TypeError,
     log_all [Invoked (Call Security "decrypt_user_data" [sealed])]
       (touched clock user_id p s)).
Proof.
  intros Hp Hsealed Hdec Hbad. unfold update_user_profile.
  rewrite (bind_ok _ _ _ _ _ (is_registered_known user_id s p Hp)). simpl.
  rewrite (bind_ok _ _ _ _ _ (update_last_activity_known clock user_id s p Hp)).
  erewrite bind_ok.
  2: { eapply profile_field_known; [apply touched_lookup|].
       rewrite dict_get_set_ne by done. exact Hsealed. }
  erewrite bind_ok; [|by apply invoke_returns].
  destruct payload; try done; by erewrite bind_raised.
Qed.

(** X8. The times in a profile view are the registry's, not the
    payload's: for a registered user whose payload decrypts to a dict,
    the profile returned by [get_user_profile] has the [registered_at] of
    the registry entry and, as [last_activity], the stamp this very read
    has just written to the registry, whatever the payload holds under
    these two keys. *)
Theorem profile_view_times (s : state) (user_id : string)
    (p payload : pydict) (sealed registered_at : val) :
  active_users s !! user_id = Some p ->
  dict_get p "encrypted_data" = Some sealed ->
  dict_get p "registered_at" = Some registered_at ->
  respond (events s) (Call Security "decrypt_user_data" [sealed]) = Ok (VDict payload) ->
  exists view s',
    get_user_profile respond clock user_id s = (Ok (success "profile" (VDict view)), s')
    /\ dict_get view "registered_at" = Some registered_at
    /\ dict_get view "last_activity"
       = Some (VStr (datetime_isoformat (clock (ticks s))))
    /\ last_activity_of s' user_id = dict_get view "last_activity".
Proof.
  intros Hp Hsealed Hreg Hdec. eexists _, _.
  split; [by eapply get_user_profile_run|].
  unfold view_of. rewrite dict_get_set_eq, dict_get_set_ne, dict_get_set_eq by done.
  repeat split. unfold last_activity_of. simpl.
  rewrite lookup_insert_eq. apply dict_get_set_eq.
Qed.

(** X9. Registration and read round-trip: with collaborators that answer
    and a security component that decrypts what it encrypted, registering a
    new id with a dict of user data and then reading the profile returns
    every field of the user data other than [password], [registered_at] and
    [last_activity] as it was given, no [password] field, and as
    [registered_at] the first clock reading of the registration. *)
Theorem register_then_read (s : state) (user_id : string) (user_data : pydict) :
  never_raises respond ->
  security_round_trip respond ->
  active_users s !! user_id = None ->
  exists view s1 s2,
    register_user respond clock user_id (VDict user_data) s = (Ok (VBool true), s1)
    /\ get_user_profile respond clock user_id s1
       = (Ok (success "profile" (VDict view)), s2)
    /\ (forall k, ~ reserved_key k -> dict_get view k = dict_get user_data k)
    /\ dict_mem view "password" = false
    /\ dict_get view "registered_at"
       = Some (VStr (datetime_isoformat (clock (ticks s)))).
Proof.
  intros Hnr Hsec Hnone. eexists _, _, _.
  split; [by apply register_user_run|].
  split.
  - eapply get_user_profile_run.
    + simpl. apply lookup_insert_eq.
    + reflexivity.
    + reflexivity.
    + destruct (Hsec (events s) (VDict user_data)) as (sealed' & Henc & Hback).
      simpl. unfold answer. rewrite Henc. apply Hback.
  - split; [intros k Hk; by apply view_of_lookup|].
    split; [apply view_of_password|].
    unfold view_of. by rewrite dict_get_set_ne, dict_get_set_eq.
Qed.

End ProfileProperties.

(** ** What the operations leave alone *)

Create HintDb frame.

Section OnlyLogs.
Variable respond : list event -> call -> outcome val.

Lemma only_logs_ret {A} (a : A) : only_logs (ret a).
Proof. intros s. exists []. simpl. by rewrite log_all_nil. Qed.

Lemma only_logs_raise {A} e : only_logs (@raise A e).
Proof. intros s. exists []. simpl. by rewrite log_all_nil. Qed.

Lemma only_logs_bind {A B} (m : M A) (k : A -> M B) :
  only_logs m -> (forall a, only_logs (k a)) -> only_logs (bind m k).
Proof.
  intros Hm Hk s. unfold bind. destruct (Hm s) as [es Hes].
  destruct (m s) as [[a|e] s1]; simpl in *; subst s1.
  - destruct (Hk a (log_all es s)) as [es' Hes']. exists (es ++ es')%list.
    by rewrite Hes', log_all_app.
  - by exists es.
Qed.

Lemma only_logs_invoke c m a : only_logs (invoke respond c m a).
Proof. intros s. by eexists [_]. Qed.

Lemma only_logs_notify u alert : only_logs (notify_healthcare_provider u alert).
Proof. intros s. by eexists [_]. Qed.

Lemma only_logs_is_registered u : only_logs (is_registered u).
Proof. intros s. exists []. simpl. by rewrite log_all_nil. Qed.

Lemma only_logs_get_profile u : only_logs (get_profile u).
Proof.
  intros s. exists []. unfold get_profile.
  destruct (active_users s !! u); simpl; by rewrite log_all_nil.
Qed.

Lemma only_logs_py_get v k dflt : only_logs (py_get v k dflt).
Proof. destruct v; first [apply only_logs_ret | apply only_logs_raise]. Qed.

#[local] Hint Resolve only_logs_ret only_logs_raise only_logs_invoke only_logs_notify
  only_logs_is_registered only_logs_get_profile only_logs_py_get : frame.

Ltac logs :=
  repeat first
    [ progress cbv zeta
    | solve [auto with frame]
    | apply only_logs_bind; [|intros ?]
    | match goal with
      | |- only_logs (if ?b then _ else _) => destruct b
      | |- only_logs (match ?v with _ => _ end) => destruct v
      end ].

Lemma only_logs_update_recommendations u a :
  only_logs (update_recommendations respond u a).
Proof. unfold update_recommendations. logs. Qed.

Lemma only_logs_handle_health_alert u alert :
  only_logs (handle_health_alert respond u alert).
Proof. unfold handle_health_alert. logs. Qed.

(** X10. [update_recommendations] and [handle_health_alert] only talk to
    collaborators: whatever the collaborators answer, and whether the call
    succeeds or raises, the registry, the running flag and the clock are
    exactly as before; in particular neither of them stamps the last
    activity of the user. *)
Theorem recommendations_and_alerts_leave_state (s : state) (user_id : string)
    (analysis_result alert : val) :
  (is_running (snd (update_recommendations respond user_id analysis_result s))
   = is_running s
   /\ active_users (snd (update_recommendations respond user_id analysis_result s))
      = active_users s
   /\ ticks (snd (update_recommendations respond user_id analysis_result s)) = ticks s)
  /\ (is_running (snd (handle_health_alert respond user_id alert s)) = is_running s
      /\ active_users (snd (handle_health_alert respond user_id alert s)) = active_users s
      /\ ticks (snd (handle_health_alert respond user_id alert s)) = ticks s).
Proof.
  destruct (only_logs_update_recommendations user_id analysis_result s) as [es ->].
  destruct (only_logs_handle_health_alert user_id alert s) as [es' ->].
  done.
Qed.

End OnlyLogs.

Section Isolation.
Variable respond : list event -> call -> outcome val.
Variable clock : nat -> datetime.
Variable user_id : string.

Lemma only_logs_touches {A} (m : M A) : only_logs m -> only_touches user_id m.
Proof. intros Hm s. by destruct (Hm s) as [es ->]. Qed.

Lemma touches_ret {A} (a : A) : only_touches user_id (ret a).
Proof. by intros s. Qed.

Lemma touches_raise {A} e : only_touches user_id (@raise A e).
Proof. by intros s. Qed.

Lemma touches_bind {A B} (m : M A) (k : A -> M B) :
  only_touches user_id m -> (forall a, only_touches user_id (k a)) ->
  only_touches user_id (bind m k).
Proof.
  intros Hm Hk s. unfold bind. destruct (Hm s) as (Hrun & Hothers & Hkept).
  destruct (m s) as [[a|e] s1]; simpl in *; [|done].
  destruct (Hk a s1) as (Hrun' & Hothers' & Hkept'). split; [congruence|]. split.
  - intros u Hu. by rewrite Hothers', Hothers.
  - intros u Hu. by apply Hkept', Hkept.
Qed.

Lemma touches_invoke c m a : only_touches user_id (invoke respond c m a).
Proof. by intros s. Qed.

Lemma touches_now : only_touches user_id (now clock).
Proof. by intros s. Qed.

Lemma touches_is_registered u : only_touches user_id (is_registered u).
Proof. by intros s. Qed.

Lemma touches_get_profile u : only_touches user_id (get_profile u).
Proof. intros s. unfold get_profile. by destruct (active_users s !! u). Qed.

Lemma touches_profile_field u k : only_touches user_id (profile_field u k).
Proof.
  apply touches_bind; [apply touches_get_profile|]. intros p.
  destruct (dict_get p k); [apply touches_ret | apply touches_raise].
Qed.

Lemma touches_insert p :
  only_touches user_id
    (fun s => (Ok tt, with_users (<[user_id := p]> (active_users s)) s)).
Proof.
  intros s. split; [done|]. split; intros u Hu; simpl.
  - by rewrite lookup_insert_ne.
  - destruct (decide (user_id = u)) as [->|Hne].
    + rewrite lookup_insert_eq. by eexists.
    + by rewrite lookup_insert_ne.
Qed.

Lemma touches_set_profile_field k v : only_touches user_id (set_profile_field user_id k v).
Proof.
  apply touches_bind; [apply touches_get_profile|]. intros p. apply touches_insert.
Qed.

Lemma touches_py_get v k dflt : only_touches user_id (py_get v k dflt).
Proof. destruct v; first [apply touches_ret | apply touches_raise]. Qed.

Lemma touches_py_iter v : only_touches user_id (py_iter v).
Proof. destruct v; first [apply touches_ret | apply touches_raise]. Qed.

Lemma touches_py_update items : forall target, only_touches user_id (py_update target items).
Proof.
  induction items as [|[k v] items IH]; intros target; simpl.
  - apply touches_ret.
  - destruct target; first [apply IH | apply touches_raise].
Qed.

Lemma touches_date_minus_days d n : only_touches user_id (date_minus_days d n).
Proof.
  unfold date_minus_days. destruct (d - n <? 1); [apply touches_raise | apply touches_ret].
Qed.

Lemma touches_for_each {A} (body : A -> M unit) l :
  (forall x, only_touches user_id (body x)) -> only_touches user_id (for_each body l).
Proof.
  intros Hbody. induction l as [|x l IH]; simpl.
  - apply touches_ret.
  - apply touches_bind; [apply Hbody | by intros _].
Qed.

Lemma touches_update_recommendations u a :
  only_touches user_id (update_recommendations respond u a).
Proof. apply only_logs_touches, only_logs_update_recommendations. Qed.

Lemma touches_handle_health_alert u alert :
  only_touches user_id (handle_health_alert respond u alert).
Proof. apply only_logs_touches, only_logs_handle_health_alert. Qed.

#[local] Hint Resolve touches_ret touches_raise touches_invoke touches_now
  touches_is_registered touches_get_profile touches_profile_field touches_insert
  touches_set_profile_field touches_py_get touches_py_iter touches_py_update
  touches_date_minus_days touches_update_recommendations
  touches_handle_health_alert : frame.

Ltac touches :=
  repeat first
    [ progress cbv zeta
    | solve [auto with frame]
    | apply touches_bind; [|intros ?]
    | match goal with
      | |- only_touches _ (if ?b then _ else _) => destruct b
      | |- only_touches _ (match ?v with _ => _ end) => destruct v
      end ].

(** X11. Users are isolated from each other: whatever the collaborators
    answer, and whether the call succeeds or raises, an operation on one
    user id never changes the registry entry of another user, never
    registers another user, never removes any user from the registry, and
    never changes the running flag. *)
Theorem operations_touch_one_user :
  (forall d, only_touches user_id (register_user respond clock user_id d))
  /\ (forall d, only_touches user_id (process_sensor_data respond clock user_id d))
  /\ (forall a b, only_touches user_id (record_supplement_intake respond clock user_id a b))
  /\ only_touches user_id (get_user_dashboard respond clock user_id)
  /\ (forall t, only_touches user_id (get_health_report respond clock user_id t))
  /\ only_touches user_id (get_user_profile respond clock user_id)
  /\ (forall patch, only_touches user_id (update_user_profile respond clock user_id patch)).
Proof.
  repeat apply conj; repeat match goal with |- forall _, _ => intro end;
    unfold register_user, process_sensor_data, record_supplement_intake,
      get_user_dashboard, get_health_report, get_user_profile, update_user_profile,
      update_last_activity, compose_report, forward_settings.
  all: touches.
  apply touches_for_each. intros ?. touches.
Qed.

End Isolation.

(** ** Interrupted start and stop *)

Section Lifecycle.
Variable respond : list event -> call -> outcome val.

(** X12. [start] and [stop] have no rollback either.  When a component
    fails to start, the components before it having started, [start] stops
    there: the exception of that component reaches the caller, the calls
    sent are exactly the starts up to the failing one, and the system stays
    flagged as not running.  When a component fails to stop, the components
    before it having stopped, [stop] stops there in the same way and the
    system stays flagged as running.  The registry and the clock are not
    touched. *)
Theorem interrupted_start_and_stop (s : state) (before after : list call)
    (c : call) (e : exn) :
  all_return respond (events s) before ->
  respond (events s ++ map Invoked before) c = Raised e ->
  (is_running s = false ->
   lifecycle_requests "start" start_order = (before ++ c :: after)%list ->
   start respond s
   = (Raised e,
      State false (active_users s) (events s ++ map Invoked (before ++ [c])) (ticks s)))
  /\ (is_running s = true ->
      lifecycle_requests "stop" (rev start_order) = (before ++ c :: after)%list ->
      stop respond s
      = (Raised e,
         State true (active_users s) (events s ++ map Invoked (before ++ [c]))
           (ticks s))).
Proof.
  intros Hall Hc.
  split; intros Hrun Hcalls; unfold start, stop; rewrite Hrun; simpl;
    unfold bind, invoke; simpl in Hcalls.
  all: do 6 (destruct before as [|? before];
          [injection Hcalls as <- <-; simpl in Hall, Hc;
           repeat match type of Hall with
                  | _ /\ _ => let v := fresh "v" in
                              let H := fresh "H" in destruct Hall as [[v H] Hall]
                  end;
           rewrite ?app_nil_r in *; rewrite <- ?app_assoc in *; simpl in *;
           repeat (match goal with
                   | H : respond ?h ?k = _ |- context [respond ?h ?k] => rewrite H
                   end; simpl; rewrite <- ?app_assoc; simpl);
           unfold log; simpl; rewrite <- ?app_assoc; simpl; by rewrite <- Hrun
          |injection Hcalls as <- Hcalls]).
  all: by destruct before.
Qed.

End Lifecycle.

(** ** The further properties in the demo world *)

Lemma sensor_pipeline_order_witness :
  exists recommendations,
    process_sensor_data demo_respond demo_clock "user123" (VInt 72) demo_registered
    = (Ok (success "result" (VDict demo_findings)),
       log_all
         (pipeline_events false "user123" (VInt 72) VNone demo_findings recommendations
            [[("message", VStr "Low iron"); ("severity", VStr "high")];
             [("message", VStr "Drink water")]])
         (touched demo_clock "user123" demo_profile demo_registered)).
Proof.
  apply (sensor_pipeline_order demo_respond demo_clock demo_registered "user123"
           demo_profile (VInt 72) VNone demo_findings
           [[("message", VStr "Low iron"); ("severity", VStr "high")];
            [("message", VStr "Drink water")]] demo_never_raises);
    by vm_compute.
Defined.

Lemma malformed_analysis_aborts_witness :
  process_sensor_data analyzer_confused demo_clock "user123" (VInt 72) demo_registered
  = (Raised AttributeError,
     log_all [Invoked (Call Sensor "process_data" [VStr "user123"; VInt 72]);
              Invoked (Call Analyzer "analyze" [VStr "user123"; VNone])]
       (touched demo_clock "user123" demo_profile demo_registered)).
Proof.
  apply (malformed_analysis_aborts analyzer_confused demo_clock demo_registered "user123"
           demo_profile (VInt 72) VNone (VList [])); by vm_compute.
Defined.

Lemma failing_alert_aborts_pipeline_witness :
  process_sensor_data ui_down demo_clock "user123" (VInt 72) demo_registered
  = (Raised (Failure "ui unavailable"),
     log_all [Invoked (Call Sensor "process_data" [VStr "user123"; VInt 72]);
              Invoked (Call Analyzer "analyze" [VStr "user123"; VNone]);
              Invoked (Call UI "send_notification"
                         [VStr "user123"; VDict [("message", VStr "Drink water")]])]
       (touched demo_clock "user123" demo_profile demo_registered)).
Proof.
  apply (failing_alert_aborts_pipeline ui_down demo_clock demo_registered "user123"
           demo_profile (VInt 72) VNone quiet_findings [("message", VStr "Drink water")]
           [VDict [("message", VStr "Low iron"); ("severity", VStr "high")]]);
    by vm_compute.
Defined.

Lemma alert_for_unknown_user_witness :
  handle_health_alert demo_respond "ghost" (VDict high_alert) demo_registered
  = (Raised (KeyError "ghost"),
     log_all [Invoked (Call UI "send_urgent_notification" [VStr "ghost"; VDict high_alert])]
       demo_registered).
Proof.
  apply (alert_for_unknown_user demo_respond demo_registered "ghost" high_alert
           demo_never_raises).
  by vm_compute.
Defined.

Lemma update_user_profile_merges_witness :
  exists merged sealed' s',
    update_user_profile demo_respond demo_clock "user123" demo_patch demo_registered
    = (Ok profile_updated, s')
    /\ (forall k,
          dict_get merged k
          = match dict_get (rev demo_patch) k with
            | Some v => Some v
            | None => dict_get demo_payload k
            end)
    /\ events s'
       = (events demo_registered
          ++ [Invoked (Call Security "decrypt_user_data"
                         [VList [VStr "sealed"; demo_user_data]]);
              Invoked (Call Security "encrypt_user_data" [VDict merged])]
          ++ [Invoked (Call Sensor "update_user_settings"
                         [VStr "user123"; VDict demo_patch]);
              Invoked (Call Intake "update_user_settings"
                         [VStr "user123"; VDict demo_patch])])%list
    /\ demo_respond
         (events demo_registered
          ++ [Invoked (Call Security "decrypt_user_data"
                         [VList [VStr "sealed"; demo_user_data]])])
         (Call Security "encrypt_user_data" [VDict merged])
       = Ok sealed'
    /\ active_users s' !! "user123"
       = Some (dict_set
                 (dict_set demo_profile "last_activity"
                    (VStr (datetime_isoformat (demo_clock (ticks demo_registered)))))
                 "encrypted_data" sealed').
Proof.
  apply (update_user_profile_merges demo_respond demo_clock demo_registered "user123"
           demo_profile demo_payload demo_patch (VList [VStr "sealed"; demo_user_data])
           demo_never_raises); by vm_compute.
Defined.

Lemma patch_then_read_witness :
  exists view s1 s2,
    update_user_profile demo_respond demo_clock "user123" demo_patch demo_registered
    = (Ok profile_updated, s1)
    /\ get_user_profile demo_respond demo_clock "user123" s1
       = (Ok (success "profile" (VDict view)), s2)
    /\ forall k, ~ reserved_key k ->
         dict_get view k
         = match dict_get (rev demo_patch) k with
           | Some v => Some v
           | None => dict_get demo_payload k
           end.
Proof.
  apply (patch_then_read demo_respond demo_clock demo_registered "user123"
           demo_profile demo_payload demo_patch (VList [VStr "sealed"; demo_user_data])
           (VStr "2024-06-10T12:34:56") demo_never_raises demo_round_trip);
    by vm_compute.
Defined.

Lemma patch_on_malformed_payload_raises_witness :
  update_user_profile demo_respond demo_clock "user123" [("age", VInt 36)] demo_corrupt
  = (Raised TypeError,
     log_all [Invoked (Call Security "decrypt_user_data" [VStr "garbage"])]
       (touched demo_clock "user123"
          (dict_set demo_profile "encrypted_data" (VStr "garbage")) demo_corrupt)).
Proof.
  apply (patch_on_malformed_payload_raises demo_respond demo_clock demo_corrupt "user123"
           (dict_set demo_profile "encrypted_data" (VStr "garbage")) []
           (VStr "garbage") VNone "age" (VInt 36)); by vm_compute.
Defined.

Lemma profile_view_times_witness :
  exists view s',
    get_user_profile demo_respond demo_clock "user123" demo_registered
    = (Ok (success "profile" (VDict view)), s')
    /\ dict_get view "registered_at" = Some (VStr "2024-06-10T12:34:56")
    /\ dict_get view "last_activity"
       = Some (VStr (datetime_isoformat (demo_clock (ticks demo_registered))))
    /\ last_activity_of s' "user123" = dict_get view "last_activity".
Proof.
  apply (profile_view_times demo_respond demo_clock demo_registered "user123"
           demo_profile demo_payload (VList [VStr "sealed"; demo_user_data])
           (VStr "2024-06-10T12:34:56")); by vm_compute.
Defined.

Lemma register_then_read_witness :
  exists view s1 s2,
    register_user demo_respond demo_clock "user123" (VDict demo_payload) init
    = (Ok (VBool true), s1)
    /\ get_user_profile demo_respond demo_clock "user123" s1
       = (Ok (success "profile" (VDict view)), s2)
    /\ (forall k, ~ reserved_key k -> dict_get view k = dict_get demo_payload k)
    /\ dict_mem view "password" = false
    /\ dict_get view "registered_at"
       = Some (VStr (datetime_isoformat (demo_clock (ticks init)))).
Proof.
  apply (register_then_read demo_respond demo_clock init "user123" demo_payload
           demo_never_raises demo_round_trip).
  by vm_compute.
Defined.

Lemma siblings_stamp_last_activity_witness :
  last_activity_of
    (snd (get_health_report demo_respond demo_clock "user123" "yearly" demo_registered))
    "user123"
  = Some (VStr (datetime_isoformat (demo_clock (ticks demo_registered))))
  /\ last_activity_of
       (snd (process_sensor_data analyzer_confused demo_clock "user123" (VInt 72)
               demo_registered))
       "user123"
     = Some (VStr (datetime_isoformat (demo_clock (ticks demo_registered)))).
Proof.
  split.
  - apply (siblings_stamp_last_activity demo_respond demo_clock "user123" demo_registered).
    rewrite demo_profile_lookup. by eexists.
  - apply (siblings_stamp_last_activity analyzer_confused demo_clock "user123"
             demo_registered).
    rewrite demo_profile_lookup. by eexists.
Defined.

Lemma returned_profile_has_no_password_witness :
  dict_get demo_payload "password" = Some (VStr "hunter2")
  /\ dict_get demo_view "name" = Some (VStr "John Doe")
  /\ dict_mem demo_view "password" = false.
Proof.
  split; [done|]. split; [by vm_compute|].
  apply (returned_profile_has_no_password demo_respond demo_clock demo_registered
           (snd (get_user_profile demo_respond demo_clock "user123" demo_registered))
           "user123" demo_view).
  by vm_compute.
Defined.

Lemma interrupted_start_and_stop_witness :
  start intake_down init
  = (Raised (Failure "intake manager unavailable"),
     State false (active_users init)
       (events init
        ++ map Invoked
             ([Call Sensor "start" []; Call Analyzer "start" [];
               Call Recommender "start" []]
              ++ [Call Intake "start" []]))
       (ticks init)).
Proof.
  apply (proj1 (interrupted_start_and_stop intake_down init
                  [Call Sensor "start" []; Call Analyzer "start" [];
                   Call Recommender "start" []]
                  [Call Security "start" []; Call UI "start" []]
                  (Call Intake "start" []) (Failure "intake manager unavailable")
                  (conj (ex_intro _ VNone eq_refl)
                     (conj (ex_intro _ VNone eq_refl)
                        (conj (ex_intro _ VNone eq_refl) I)))
                  eq_refl));
    reflexivity.
Defined.

(** ** The running flag gates nothing *)

Section RunningFlag.
Variable respond : list event -> call -> outcome val.
Variable clock : nat -> datetime.

Lemma ignores_ret {A} (a : A) : ignores_running (ret a).
Proof. by intros b s. Qed.

Lemma ignores_raise {A} e : ignores_running (@raise A e).
Proof. by intros b s. Qed.

Lemma ignores_bind {A B} (m : M A) (k : A -> M B) :
  ignores_running m -> (forall a, ignores_running (k a)) -> ignores_running (bind m k).
Proof.
  intros Hm Hk b s. unfold bind. rewrite Hm.
  destruct (m s) as [[a|e] s1]; simpl; [|done]. by rewrite Hk.
Qed.

Lemma ignores_invoke c m a : ignores_running (invoke respond c m a).
Proof. by intros b s. Qed.

Lemma ignores_now : ignores_running (now clock).
Proof. by intros b s. Qed.

Lemma ignores_is_registered u : ignores_running (is_registered u).
Proof. by intros b s. Qed.

Lemma ignores_get_profile u : ignores_running (get_profile u).
Proof. intros b s. unfold get_profile. simpl. by destruct (active_users s !! u). Qed.

Lemma ignores_profile_field u k : ignores_running (profile_field u k).
Proof.
  apply ignores_bind; [apply ignores_get_profile|]. intros p.
  destruct (dict_get p k); [apply ignores_ret | apply ignores_raise].
Qed.

Lemma ignores_insert u p :
  ignores_running (fun s => (Ok tt, with_users (<[u := p]> (active_users s)) s)).
Proof. by intros b s. Qed.

Lemma ignores_set_profile_field u k v : ignores_running (set_profile_field u k v).
Proof.
  apply ignores_bind; [apply ignores_get_profile|]. intros p. apply ignores_insert.
Qed.

Lemma ignores_notify u alert : ignores_running (notify_healthcare_provider u alert).
Proof. by intros b s. Qed.

Lemma ignores_py_get v k dflt : ignores_running (py_get v k dflt).
Proof. destruct v; first [apply ignores_ret | apply ignores_raise]. Qed.

Lemma ignores_py_iter v : ignores_running (py_iter v).
Proof. destruct v; first [apply ignores_ret | apply ignores_raise]. Qed.

Lemma ignores_py_update items : forall target, ignores_running (py_update target items).
Proof.
  induction items as [|[k v] items IH]; intros target; simpl.
  - apply ignores_ret.
  - destruct target; first [apply IH | apply ignores_raise].
Qed.

Lemma ignores_date_minus_days d n : ignores_running (date_minus_days d n).
Proof.
  unfold date_minus_days. destruct (d - n <? 1); [apply ignores_raise | apply ignores_ret].
Qed.

Lemma ignores_for_each {A} (body : A -> M unit) l :
  (forall x, ignores_running (body x)) -> ignores_running (for_each body l).
Proof.
  intros Hbody. induction l as [|x l IH]; simpl.
  - apply ignores_ret.
  - apply ignores_bind; [apply Hbody | by intros _].
Qed.

#[local] Hint Resolve ignores_ret ignores_raise ignores_invoke ignores_now
  ignores_is_registered ignores_get_profile ignores_profile_field ignores_insert
  ignores_set_profile_field ignores_notify ignores_py_get ignores_py_iter
  ignores_py_update ignores_date_minus_days : frame.

Ltac ignores :=
  repeat first
    [ progress cbv zeta
    | solve [auto with frame]
    | apply ignores_bind; [|intros ?]
    | match goal with
      | |- ignores_running (if ?b then _ else _) => destruct b
      | |- ignores_running (match ?v with _ => _ end) => destruct v
      end ].

(** X16. No user operation looks at the running flag: registering,
    ingesting sensor data, updating recommendations, recording an intake,
    handling an alert and reading or updating dashboards, reports and
    profiles give the same result and the same effects on a system that was
    never started, or was stopped, as on a running one. *)
Theorem operations_ignore_running_flag (user_id : string) :
  (forall d, ignores_running (register_user respond clock user_id d))
  /\ (forall d, ignores_running (process_sensor_data respond clock user_id d))
  /\ (forall a, ignores_running (update_recommendations respond user_id a))
  /\ (forall a b, ignores_running (record_supplement_intake respond clock user_id a b))
  /\ (forall a, ignores_running (handle_health_alert respond user_id a))
  /\ ignores_running (get_user_dashboard respond clock user_id)
  /\ (forall t, ignores_running (get_health_report respond clock user_id t))
  /\ ignores_running (get_user_profile respond clock user_id)
  /\ (forall patch, ignores_running (update_user_profile respond clock user_id patch)).
Proof.
  repeat apply conj; repeat match goal with |- forall _, _ => intro end;
    unfold register_user, process_sensor_data, update_recommendations,
      record_supplement_intake, handle_health_alert, get_user_dashboard,
      get_health_report, get_user_profile, update_user_profile,
      update_last_activity, compose_report, forward_settings.
  all: ignores.
  apply ignores_for_each. intros ?.
  unfold handle_health_alert. ignores.
Qed.

End RunningFlag.

(** ** The provider setting of a registered user *)

Section ProviderSetting.
Variable respond : list event -> call -> outcome val.
Variable clock : nat -> datetime.

(** C4 fails on the code for the notice to the healthcare provider.  A
    user who registers with [notify_healthcare_provider] set to [True], as
    [main] does, and then has an alert of severity high gets the urgent
    notification and nothing else: the provider is not notified.
    [register_user] seals the setting inside the encrypted payload, while
    [handle_health_alert] looks for it in the registry entry, whose keys are
    [id], [encrypted_data], [registered_at], [last_activity] and
    [components]. *)
Theorem registered_provider_setting_is_ignored (s : state) (user_id : string)
    (user_data alert : pydict) :
  never_raises respond ->
  active_users s !! user_id = None ->
  dict_get user_data "notify_healthcare_provider" = Some (VBool true) ->
  dict_get alert "severity" = Some (VStr "high") ->
  exists s1,
    register_user respond clock user_id (VDict user_data) s = (Ok (VBool true), s1)
    /\ handle_health_alert respond user_id (VDict alert) s1
       = (Ok alert_handled,
          log_all [Invoked (Call UI "send_urgent_notification"
                              [VStr user_id; VDict alert])] s1).
Proof.
  intros Hnr Hnone _ Hsev. eexists. split; [by apply register_user_run|].
  erewrite (handle_health_alert_run respond Hnr).
  2: { simpl. apply lookup_insert_eq. }
  unfold dispatch, dict_get_default. by rewrite Hsev.
Qed.

End ProviderSetting.

(** C4 on the registration of [main] followed by a high alert. *)
Lemma registered_provider_setting_is_ignored_witness :
  dict_get demo_payload "notify_healthcare_provider" = Some (VBool true)
  /\ exists s1,
      register_user demo_respond demo_clock "user123" (VDict demo_payload) init
      = (Ok (VBool true), s1)
      /\ handle_health_alert demo_respond "user123" (VDict high_alert) s1
         = (Ok alert_handled,
            log_all [Invoked (Call UI "send_urgent_notification"
                                [VStr "user123"; VDict high_alert])] s1).
Proof.
  split; [done|].
  apply (registered_provider_setting_is_ignored demo_respond demo_clock init "user123"
           demo_payload high_alert demo_never_raises); by vm_compute.
Defined.

